(** * Baxter hardware abstraction: a shallow embedding of [hardware/baxter.py]

    The development follows the methods of the [Baxter] class one by one.
    Python floats are read as exact rationals ([Q]): comparisons are the
    ones of the source, arithmetic is exact.  Every method that touches the
    robot, the settings module, the logger or the random source is a
    computation in a small state-and-exception monad, so that the order of
    the effects of the source is the order of the effects of the model. *)

From Stdlib Require Import QArith Qabs Qminmax Lqa ZArith.
From stdpp Require Import gmap strings list fin_maps.

Local Open Scope Q_scope.

(** ** Arms, poses, matrices *)

(** The two limbs, ['left'] and ['right'], in the order of [self._arms]. *)
Inductive Arm : Type := Left | Right.

Definition _arms : list Arm := [Left; Right].

Definition other_arm (a : Arm) : Arm :=
  match a with Left => Right | Right => Left end.

Definition Arm_eqb (a b : Arm) : bool :=
  match a, b with
  | Left, Left | Right, Right => true
  | _, _ => false
  end.

(** A ROS [geometry_msgs/Pose]: a position and an orientation quaternion.
    The dictionary returned by [Limb.endpoint_pose()] has the same
    content. *)
Record Pose : Type := {
  position : Q * Q * Q;
  orientation : Q * Q * Q * Q
}.

(** What the callers pass as [pose]: a ROS message or a plain list. *)
Inductive PoseArg : Type :=
| PoseMsg (p : Pose)
| PoseList (l : list Q).

Record PoseStamped : Type := {
  frame_id : string;
  pose_msg : Pose
}.

(** Four-vectors and 4x4 matrices, as [numpy] holds them. *)
Record Vec4 : Type := { v0 : Q; v1 : Q; v2 : Q; v3 : Q }.
Record Mat4 : Type := { row0 : Vec4; row1 : Vec4; row2 : Vec4; row3 : Vec4 }.

Definition vec4 (a b c d : Q) : Vec4 :=
  {| v0 := a; v1 := b; v2 := c; v3 := d |}.

Definition dot4 (a b : Vec4) : Q :=
  v0 a * v0 b + v1 a * v1 b + v2 a * v2 b + v3 a * v3 b.

Definition col (m : Mat4) (p : Vec4 -> Q) : Vec4 :=
  {| v0 := p (row0 m); v1 := p (row1 m); v2 := p (row2 m); v3 := p (row3 m) |}.

(** [np.dot] of a matrix and a vector. *)
Definition mat_vec (m : Mat4) (x : Vec4) : Vec4 :=
  {| v0 := dot4 (row0 m) x; v1 := dot4 (row1 m) x;
     v2 := dot4 (row2 m) x; v3 := dot4 (row3 m) x |}.

(** [np.dot] of two matrices. *)
Definition mat_mul (a b : Mat4) : Mat4 :=
  let r (x : Vec4) :=
    {| v0 := dot4 x (col b v0); v1 := dot4 x (col b v1);
       v2 := dot4 x (col b v2); v3 := dot4 x (col b v3) |} in
  {| row0 := r (row0 a); row1 := r (row1 a);
     row2 := r (row2 a); row3 := r (row3 a) |}.

(** [rob_coord /= rob_coord[-1]]. *)
Definition vec_div (x : Vec4) (w : Q) : Vec4 :=
  {| v0 := v0 x / w; v1 := v1 x / w; v2 := v2 x / w; v3 := v3 x / w |}.

(** The camera frame in the gripper frame: a quarter turn about the
    normal axis and the mounting offset. *)
Definition hom_cam_in_grip (off : Q * Q * Q) : Mat4 :=
  let '(dx, dy, dz) := off in
  {| row0 := vec4 0 1 0 dx; row1 := vec4 (-1) 0 0 dy;
     row2 := vec4 0 0 1 dz; row3 := vec4 0 0 0 1 |}.

(** [hom_coord = np.asarray(cam_coord + [1])], [np.dot(hom, hom_coord)] and
    the division by the last component; [None] when the shapes do not
    fit. *)
Definition transform_to_robot (hom : Mat4) (cam_coord : list Q)
  : option Vec4 :=
  match cam_coord ++ [1] with
  | [x; y; z; w] =>
      let rob_coord := mat_vec hom (vec4 x y z w) in
      Some (vec_div rob_coord (v3 rob_coord))
  | _ => None
  end.

(** [np.pi] is the double nearest to pi, a dyadic rational. *)
Definition np_pi : Q := 884279719003555 # 281474976710656.

Definition Qgtb (x y : Q) : bool := negb (Qle_bool x y).
Definition Qltb (x y : Q) : bool := negb (Qle_bool y x).

(** ** Messages, exceptions, events *)

(** The formatted strings of the source, kept as data: each constructor is
    one format string with the values it is filled with. *)
Inductive Msg : Type :=
| Text (s : string)
| InvalidPoseFormat (l : list Q)
| ServiceRequestFailed (timed_out : bool)
| NoValidConfiguration (pose : PoseArg) (a : Arm)
| NoValidConfigurationEither (pose : option PoseArg)
| GripperSuitable (a : Arm) (offset : Q)
| NoSuitableGripper (object_id : string) (size : Q)
    (left_min left_max right_min right_max : Q)
| SelectedLimb (a : Arm)
| ZDeviation (delta : Q).

Inductive Exn : Type :=
| ValueError (m : Msg)
| KeyError
| TypeError
| IndexError
| AttributeError
| ROSException
| ServiceException.

Definition is_ValueError (e : Exn) : bool :=
  match e with ValueError _ => true | _ => false end.

Definition is_service_error (e : Exn) : bool :=
  match e with ROSException | ServiceException => true | _ => false end.

Inductive Level : Type := DEBUG | INFO | WARNING | ERROR.

(** What the object does to its collaborators, in the order it does it. *)
Inductive Event : Type :=
| Log (lvl : Level) (m : Msg)
| RobotEnable_init
| RobotEnable_enable
| RobotEnable_disable
| Limb_move_to_neutral (a : Arm)
| Gripper_set_parameters (a : Arm) (defaults : bool)
| Gripper_calibrate (a : Arm)
| Gripper_open (a : Arm)
| wait_for_service (a : Arm)
| ik_request (a : Arm) (pq : PoseStamped).

(** ** The state *)

Inductive IKOutcome : Type :=
| ServiceTimeout
| ServiceFailure
| IKResponse (isValid : bool) (name : list string) (position : list Q).

(** The robot and the services around it, as far as the object reads them. *)
Record World : Type := {
  rs_enabled : bool;
  limb_endpoint_pose : Arm -> Pose;
  limb_joint_angles : Arm -> gmap string Q;
  sensor_state : Arm -> Z;
  ik_service : Arm -> PoseStamped -> IKOutcome;
  random_stream : nat -> Q;
  random_pos : nat
}.

(** The [settings] module: its dictionaries are shared objects. *)
Record Settings : Type := {
  task_space_limits_m : gmap string Q;
  object_size_meters : gmap string Q;
  gripper_settings : Arm -> string * Z
}.

(** The attributes of the [Baxter] instance that the methods assign. *)
Record Baxter : Type := {
  _rs : bool;
  _init_state : option bool;
  cam_offset : option (Q * Q * Q);
  range_offset : option (Q * Q * Q);
  z_table : option Q;
  meters_per_pixel : Arm -> option Q
}.

Record State : Type := {
  world : World;
  settings : Settings;
  self : Baxter;
  trace : list Event
}.

Definition Baxter_init : Baxter :=
  {| _rs := false; _init_state := None; cam_offset := None;
     range_offset := None; z_table := None;
     meters_per_pixel := fun _ => None |}.

Definition set_world (f : World -> World) (s : State) : State :=
  {| world := f (world s); settings := settings s; self := self s;
     trace := trace s |}.

Definition set_settings (f : Settings -> Settings) (s : State) : State :=
  {| world := world s; settings := f (settings s); self := self s;
     trace := trace s |}.

Definition set_self (f : Baxter -> Baxter) (s : State) : State :=
  {| world := world s; settings := settings s; self := f (self s);
     trace := trace s |}.

Definition set_trace (f : list Event -> list Event) (s : State) : State :=
  {| world := world s; settings := settings s; self := self s;
     trace := f (trace s) |}.

Definition with_rs_enabled (b : bool) (w : World) : World :=
  {| rs_enabled := b; limb_endpoint_pose := limb_endpoint_pose w;
     limb_joint_angles := limb_joint_angles w;
     sensor_state := sensor_state w; ik_service := ik_service w;
     random_stream := random_stream w; random_pos := random_pos w |}.

Definition with_random_pos (n : nat) (w : World) : World :=
  {| rs_enabled := rs_enabled w; limb_endpoint_pose := limb_endpoint_pose w;
     limb_joint_angles := limb_joint_angles w;
     sensor_state := sensor_state w; ik_service := ik_service w;
     random_stream := random_stream w; random_pos := n |}.

Definition with_task_space_limits_m (d : gmap string Q) (c : Settings)
  : Settings :=
  {| task_space_limits_m := d; object_size_meters := object_size_meters c;
     gripper_settings := gripper_settings c |}.

Definition with_rs (b : Baxter) : Baxter :=
  {| _rs := true; _init_state := _init_state b; cam_offset := cam_offset b;
     range_offset := range_offset b; z_table := z_table b;
     meters_per_pixel := meters_per_pixel b |}.

Definition with_init_state (v : bool) (b : Baxter) : Baxter :=
  {| _rs := _rs b; _init_state := Some v; cam_offset := cam_offset b;
     range_offset := range_offset b; z_table := z_table b;
     meters_per_pixel := meters_per_pixel b |}.

Definition with_cam_offset (o : Q * Q * Q) (b : Baxter) : Baxter :=
  {| _rs := _rs b; _init_state := _init_state b; cam_offset := Some o;
     range_offset := range_offset b; z_table := z_table b;
     meters_per_pixel := meters_per_pixel b |}.

Definition with_range_offset (o : Q * Q * Q) (b : Baxter) : Baxter :=
  {| _rs := _rs b; _init_state := _init_state b; cam_offset := cam_offset b;
     range_offset := Some o; z_table := z_table b;
     meters_per_pixel := meters_per_pixel b |}.

Definition with_z_table (z : Q) (b : Baxter) : Baxter :=
  {| _rs := _rs b; _init_state := _init_state b; cam_offset := cam_offset b;
     range_offset := range_offset b; z_table := Some z;
     meters_per_pixel := meters_per_pixel b |}.

Definition with_meters_per_pixel (a : Arm) (v : Q) (b : Baxter) : Baxter :=
  {| _rs := _rs b; _init_state := _init_state b; cam_offset := cam_offset b;
     range_offset := range_offset b; z_table := z_table b;
     meters_per_pixel :=
       fun a' => if Arm_eqb a a' then Some v else meters_per_pixel b a' |}.

(** ** The monad: state that survives an exception *)

Inductive Result (A : Type) : Type :=
| Ok (a : A)
| Raise (e : Exn).
Arguments Ok {A} a.
Arguments Raise {A} e.

Definition M (A : Type) : Type := State -> Result A * State.

Definition ret {A} (a : A) : M A := fun s => (Ok a, s).

Definition bind {A B} (m : M A) (k : A -> M B) : M B :=
  fun s =>
    match m s with
    | (Ok a, s') => k a s'
    | (Raise e, s') => (Raise e, s')
    end.

Definition raise {A} (e : Exn) : M A := fun s => (Raise e, s).

Definition gets {A} (f : State -> A) : M A := fun s => (Ok (f s), s).

Definition modify (f : State -> State) : M unit := fun s => (Ok tt, f s).

(** [try: m except <sel>: h]: the handler runs in the state the exception
    left behind. *)
Definition try_except {A} (m : M A) (sel : Exn -> bool) (h : Exn -> M A)
  : M A :=
  fun s =>
    match m s with
    | (Raise e, s') => if sel e then h e s' else (Raise e, s')
    | r => r
    end.

Declare Scope monad_scope.
Delimit Scope monad_scope with monad.
Notation "x <- m ;; k" := (bind m (fun x => k))
  (at level 100, m at next level, right associativity) : monad_scope.
Notation "m ;;; k" := (bind m (fun _ => k))
  (at level 100, right associativity) : monad_scope.
Local Open Scope monad_scope.

Definition emit (e : Event) : M unit :=
  modify (set_trace (fun t => t ++ [e])).

Definition log (lvl : Level) (m : Msg) : M unit := emit (Log lvl m).

(** [d[k]] on a dictionary: a missing key raises [KeyError]. *)
Definition getitem {K V} `{Countable K} (d : gmap K V) (k : K) : M V :=
  match d !! k with
  | Some v => ret v
  | None => raise KeyError
  end.

(** [for x in l: body], threading the local variables [acc]. *)
Fixpoint for_each {A B} (l : list A) (body : A -> B -> M B) (acc : B)
  : M B :=
  match l with
  | [] => ret acc
  | x :: l' => acc' <- body x acc ;; for_each l' body acc'
  end.

Definition run {A} (m : M A) (s : State) : Result A := fst (m s).
Definition exec {A} (m : M A) (s : State) : State := snd (m s).

(** [only_trace_grew s s']: between [s] and [s'] events were recorded and
    nothing else changed. *)
Definition only_trace_grew (s s' : State) : Prop :=
  world s' = world s /\ settings s' = settings s /\ self s' = self s /\
  exists evs, trace s' = trace s ++ evs.

(** A computation respects a relation on states when the state it leaves
    behind, whether it returns or raises, is related to the state it
    started in. *)
Definition respects (R : State -> State -> Prop) {A} (m : M A) : Prop :=
  forall s, R s (snd (m s)).

(** The robot's enablement and the object's record of it are as before. *)
Definition enablement_kept (s s' : State) : Prop :=
  rs_enabled (world s') = rs_enabled (world s) /\
  _rs (self s') = _rs (self s) /\
  _init_state (self s') = _init_state (self s).

(** The settings module is as before. *)
Definition settings_kept (s s' : State) : Prop :=
  settings s' = settings s.

(** ** Gripper selection *)

(** [_gripper_ranges_meters()]: a fresh dictionary at every call. *)
Definition _gripper_ranges_meters : gmap (string * Z) (Q * Q) :=
  list_to_map
    [ (("narrow"%string, 1%Z), (0.0, 0.018));
      (("narrow"%string, 2%Z), (0.014, 0.037));
      (("narrow"%string, 3%Z), (0.033, 0.056));
      (("narrow"%string, 4%Z), (0.052, 0.075));
      (("wide"%string, 1%Z), (0.071, 0.094));
      (("wide"%string, 2%Z), (0.090, 0.113));
      (("wide"%string, 3%Z), (0.109, 0.132));
      (("wide"%string, 4%Z), (0.128, 0.151)) ].

(** The local variables [dist], [min_width] and [arm] of the loop. *)
Record Selection : Type := {
  sel_dist : Q;
  sel_min_width : Q;
  sel_arm : option Arm
}.

(** The body of [for a in self._arms] in [select_gripper_for_object]. *)
Definition select_gripper_body (size : Q) (a : Arm) (loc : Selection)
  : M Selection :=
  key <- gets (fun s => gripper_settings (settings s) a) ;;
  gr <- getitem _gripper_ranges_meters key ;;
  if Qle_bool (fst gr) size && Qltb size (snd gr) then
    let min_dist := Qmin (Qabs (fst gr - size)) (Qabs (snd gr - size)) in
    if Qgtb min_dist 0.0 then
      log DEBUG (GripperSuitable a min_dist) ;;;
      if Qgtb min_dist (sel_dist loc) then
        ret {| sel_dist := min_dist;
               sel_min_width :=
                 if Qgtb (fst gr) (sel_min_width loc) then fst gr
                 else sel_min_width loc;
               sel_arm := Some a |}
      else if Qeq_bool min_dist (sel_dist loc) then
        if Qgtb (fst gr) (sel_min_width loc) then
          ret {| sel_dist := sel_dist loc; sel_min_width := fst gr;
                 sel_arm := Some a |}
        else ret loc
      else ret loc
    else ret loc
  else ret loc.

Definition select_init : Selection :=
  {| sel_dist := 0.0; sel_min_width := 0.0; sel_arm := None |}.

Definition select_gripper_for_object (object_id : string) : M Arm :=
  sizes <- gets (fun s => object_size_meters (settings s)) ;;
  size <- getitem sizes object_id ;;
  loc <- for_each _arms (select_gripper_body size) select_init ;;
  match sel_arm loc with
  | None =>
      sizes' <- gets (fun s => object_size_meters (settings s)) ;;
      size' <- getitem sizes' object_id ;;
      kl <- gets (fun s => gripper_settings (settings s) Left) ;;
      gl <- getitem _gripper_ranges_meters kl ;;
      kr <- gets (fun s => gripper_settings (settings s) Right) ;;
      gr <- getitem _gripper_ranges_meters kr ;;
      let msg :=
        NoSuitableGripper object_id size' (fst gl) (snd gl) (fst gr) (snd gr)
      in
      log ERROR msg ;;;
      raise (ValueError msg)
  | Some arm =>
      log INFO (SelectedLimb arm) ;;;
      ret arm
  end.

(** The range installed on an arm, and the distance from a size to the
    nearer end of a range. *)
Definition installed_range (c : Settings) (a : Arm) : option (Q * Q) :=
  _gripper_ranges_meters !! gripper_settings c a.

Definition nearer_boundary (gr : Q * Q) (size : Q) : Q :=
  Qmin (Qabs (fst gr - size)) (Qabs (snd gr - size)).

(** The loop body read as a function of the local variables alone. *)
Definition select_step (size : Q) (a : Arm) (gr : Q * Q) (loc : Selection)
  : Selection :=
  if Qle_bool (fst gr) size && Qltb size (snd gr) then
    let min_dist := nearer_boundary gr size in
    if Qgtb min_dist 0.0 then
      if Qgtb min_dist (sel_dist loc) then
        {| sel_dist := min_dist;
           sel_min_width :=
             if Qgtb (fst gr) (sel_min_width loc) then fst gr
             else sel_min_width loc;
           sel_arm := Some a |}
      else if Qeq_bool min_dist (sel_dist loc) then
        if Qgtb (fst gr) (sel_min_width loc) then
          {| sel_dist := sel_dist loc; sel_min_width := fst gr;
             sel_arm := Some a |}
        else loc
      else loc
    else loc
  else loc.

(** ** Distance sensor *)

Definition measure_distance (arm : Arm) : M (option Q) :=
  distance <- gets (fun s => sensor_state (world s) arm) ;;
  if (distance <? 65000)%Z then ret (Some (inject_Z distance / 1000.0))
  else ret None.

(** ** Sampling poses *)

(** [np.random.random_sample()]: the next draw of the process-wide source. *)
Definition random_sample : M Q :=
  r <- gets (fun s => random_stream (world s) (random_pos (world s))) ;;
  modify (set_world (fun w => with_random_pos (S (random_pos w)) w)) ;;;
  ret r.

(** [(lim[k_max] - lim[k_min])*np.random.random_sample() + lim[k_min]],
    in exact arithmetic; the doubles of the source round, so that a draw
    just below 1 can give [lim[k_max]] itself. *)
Definition sample_coordinate (lim : gmap string Q) (k_max k_min : string)
  : M Q :=
  hi <- getitem lim k_max ;;
  lo <- getitem lim k_min ;;
  r <- random_sample ;;
  lo' <- getitem lim k_min ;;
  ret ((hi - lo) * r + lo').

Definition sample_pose (lim : gmap string Q) : M (list Q) :=
  x <- sample_coordinate lim "x_max" "x_min" ;;
  y <- sample_coordinate lim "y_max" "y_min" ;;
  z <- sample_coordinate lim "z_max" "z_min" ;;
  roll <- sample_coordinate lim "roll_max" "roll_min" ;;
  pitch <- sample_coordinate lim "pitch_max" "pitch_min" ;;
  yaw <- sample_coordinate lim "yaw_max" "yaw_min" ;;
  ret [x; y; z; roll; pitch; yaw].

(** [borders[k] = v], where [borders] is the very dictionary that
    [settings.task_space_limits_m] names: the store is the one of the
    settings module. *)
Definition borders_setitem (k : string) (v : Q) : M unit :=
  modify (set_settings (fun c =>
    with_task_space_limits_m (<[k := v]> (task_space_limits_m c)) c)).

Definition sample_task_space_pose (clip_z : bool) : M (list Q) :=
  (if clip_z then borders_setitem "z_max" 0.0 else ret tt) ;;;
  borders_setitem "roll_max" np_pi ;;;
  borders_setitem "roll_min" np_pi ;;;
  borders_setitem "pitch_max" 0.0 ;;;
  borders_setitem "pitch_min" 0.0 ;;;
  borders_setitem "yaw_max" np_pi ;;;
  borders_setitem "yaw_min" np_pi ;;;
  borders <- gets (fun s => task_space_limits_m (settings s)) ;;
  sample_pose borders.

(** ** Set-up and shut-down *)

Definition _get_cam_offset : Q * Q * Q := (0.03828, 0.012, -0.142345).
Definition _get_range_offset : Q * Q * Q := (0.032, -0.020245, -0.1289).

(** [self._rs.enable()] and [self._rs.disable()]; without a handle
    ([self._rs] is [None]) the attribute access fails. *)
Definition rs_enable : M unit :=
  h <- gets (fun s => _rs (self s)) ;;
  if h then
    emit RobotEnable_enable ;;;
    modify (set_world (with_rs_enabled true))
  else raise AttributeError.

Definition rs_disable : M unit :=
  h <- gets (fun s => _rs (self s)) ;;
  if h then
    emit RobotEnable_disable ;;;
    modify (set_world (with_rs_enabled false))
  else raise AttributeError.

(** Truth value of [self._init_state]: [None] is false. *)
Definition truthy (v : option bool) : bool :=
  match v with Some b => b | None => false end.

Definition set_up (gripper : bool) : M unit :=
  log INFO (Text "Getting robot state.") ;;;
  emit RobotEnable_init ;;;
  modify (set_self with_rs) ;;;
  enabled <- gets (fun s => rs_enabled (world s)) ;;
  modify (set_self (with_init_state enabled)) ;;;
  log INFO (Text "Enabling robot.") ;;;
  rs_enable ;;;
  log INFO (Text "Getting camera offset.") ;;;
  modify (set_self (with_cam_offset _get_cam_offset)) ;;;
  log INFO (Text "Getting range offset.") ;;;
  modify (set_self (with_range_offset _get_range_offset)) ;;;
  log INFO
    (Text "Moving limbs to neutral configuration and calibrate grippers.") ;;;
  for_each _arms (fun arm _ =>
    emit (Limb_move_to_neutral arm) ;;;
    (if gripper then
       emit (Gripper_set_parameters arm false) ;;;
       emit (Gripper_calibrate arm)
     else ret tt) ;;;
    modify (set_self (with_meters_per_pixel arm 0.0025))) tt.

Definition clean_up (gripper : bool) : M unit :=
  log INFO (Text "Initiating safe shut-down") ;;;
  log INFO (Text "Moving limbs to neutral configuration") ;;;
  for_each _arms (fun arm _ =>
    (if gripper then
       emit (Gripper_set_parameters arm true) ;;;
       emit (Gripper_open arm)
     else ret tt) ;;;
    emit (Limb_move_to_neutral arm)) tt ;;;
  init <- gets (fun s => _init_state (self s)) ;;
  if negb (truthy init) then
    log INFO (Text "Disabling robot") ;;;
    rs_disable
  else ret tt.

Definition move_to_neutral (arm : option Arm) : M unit :=
  match arm with
  | None => for_each _arms (fun a _ => emit (Limb_move_to_neutral a)) tt
  | Some a => emit (Limb_move_to_neutral a)
  end.

Section Kinematics.

(** ** Helpers the source imports

    [utils.list_to_pose_msg] ([None] stands for its [ValueError]),
    [utils.pose_dict_to_hom], [utils.hom_to_list] and the camera's
    [projection_pixel_to_camera] are not part of this module; the
    methods below are embedded over arbitrary such functions. *)
Variable list_to_pose_msg : list Q -> option Pose.
Variable pose_dict_to_hom : Pose -> Mat4.
Variable hom_to_list : Mat4 -> list Q.
Variable projection_pixel_to_camera : option Q -> Q * Q -> Q -> list Q.

(** ** Inverse kinematics *)

Definition _stamp_pose (pose : PoseArg) (target_frame : string)
  : M PoseStamped :=
  msg <- match pose with
         | PoseMsg p => ret p
         | PoseList l =>
             match list_to_pose_msg l with
             | Some p => ret p
             | None =>
                 log ERROR (InvalidPoseFormat l) ;;;
                 raise (ValueError (InvalidPoseFormat l))
             end
         end ;;
  ret {| frame_id := target_frame; pose_msg := msg |}.

(** [rospy.wait_for_service(node, 5.0)] followed by the request. *)
Definition call_ik_service (arm : Arm) (pq : PoseStamped)
  : M (bool * list string * list Q) :=
  emit (wait_for_service arm) ;;;
  out <- gets (fun s => ik_service (world s) arm pq) ;;
  match out with
  | ServiceTimeout => raise ROSException
  | ServiceFailure => emit (ik_request arm pq) ;;; raise ServiceException
  | IKResponse v n p => emit (ik_request arm pq) ;;; ret (v, n, p)
  end.

(** [dict(zip(names, positions))]: a later pair overrides an earlier one. *)
Definition dict_zip (names : list string) (positions : list Q)
  : gmap string Q :=
  foldl (fun d p => <[fst p := snd p]> d) ∅ (zip names positions).

Definition ik (arm : Arm) (pose : option PoseArg) : M (gmap string Q) :=
  match pose with
  | None => gets (fun s => limb_joint_angles (world s) arm)
  | Some p =>
      pq <- _stamp_pose p "base" ;;
      ik_response <-
        try_except (call_ik_service arm pq) is_service_error
          (fun e =>
             log ERROR (ServiceRequestFailed
                          (match e with ROSException => true | _ => false end)) ;;;
             raise e) ;;
      let '(isValid, name, position) := ik_response in
      if isValid then ret (dict_zip name position)
      else
        log DEBUG (NoValidConfiguration p arm) ;;;
        raise (ValueError (NoValidConfiguration p arm))
  end.

Definition ik_either_limb (pose : option PoseArg)
  : M (Arm * gmap string Q) :=
  try_except (cfg <- ik Left pose ;; ret (Left, cfg)) is_ValueError
    (fun _ =>
       try_except (cfg <- ik Right pose ;; ret (Right, cfg)) is_ValueError
         (fun _ =>
            log WARNING (NoValidConfigurationEither pose) ;;;
            raise (ValueError (NoValidConfigurationEither pose)))).

(** ** Frames and position estimate *)

Definition hom_gripper_to_robot (arm : Arm) : M Mat4 :=
  ee_pose <- gets (fun s => limb_endpoint_pose (world s) arm) ;;
  ret (pose_dict_to_hom ee_pose).

(** The matrices here are rational.  With [cam_offset] still [None]
    numpy writes nan into the offset column and the source carries on
    with a matrix of nan; that matrix has no counterpart here, and the
    definition stops with [TypeError] in its place.  The statements about
    a returned matrix or estimate all assume the offset that [set_up]
    assigns, where definition and source agree. *)
Definition hom_camera_to_robot (arm : Arm) : M Mat4 :=
  hom_grip_in_rob <- hom_gripper_to_robot arm ;;
  off <- gets (fun s => cam_offset (self s)) ;;
  match off with
  | None => raise TypeError
  | Some off => ret (mat_mul hom_grip_in_rob (hom_cam_in_grip off))
  end.

Definition camera_pose (arm : Arm) : M (list Q) :=
  m <- hom_camera_to_robot arm ;;
  ret (hom_to_list m).

(** [l[i]] on a list. *)
Definition list_getitem (l : list Q) (i : nat) : M Q :=
  match l !! i with
  | Some x => ret x
  | None => raise IndexError
  end.

Definition estimate_object_position (arm : Arm) (center : Q * Q)
  : M (list Q) :=
  cam_pose <- camera_pose arm ;;
  cam_z <- list_getitem cam_pose 2 ;;
  zt <- gets (fun s => z_table (self s)) ;;
  match zt with
  | None => raise TypeError
  | Some z_table =>
      let distance := cam_z - z_table in
      mpp <- gets (fun s => meters_per_pixel (self s) arm) ;;
      let cam_coord := projection_pixel_to_camera mpp center distance in
      hom <- hom_camera_to_robot arm ;;
      match transform_to_robot hom cam_coord with
      | Some rob_coord =>
          let delta := Qabs (Qabs (v2 rob_coord) - Qabs z_table) in
          (if Qgtb delta 1e-3 then log WARNING (ZDeviation delta)
           else ret tt) ;;;
          ret [v0 rob_coord; v1 rob_coord; z_table]
      | None => raise (ValueError (Text "shapes not aligned"))
      end
  end.

(** The matrix [hom_camera_to_robot] returns in state [s] when the camera
    offset is [off]. *)
Definition camera_hom (s : State) (arm : Arm) (off : Q * Q * Q) : Mat4 :=
  mat_mul (pose_dict_to_hom (limb_endpoint_pose (world s) arm))
    (hom_cam_in_grip off).

(** ** A working session

    What a caller does with the object between set-up and shut-down: any
    sequence of the calls above and of assignments to [z_table], each
    exception being caught by the caller. *)
Inductive Call : Type :=
| Call_ik (arm : Arm) (pose : option PoseArg)
| Call_ik_either_limb (pose : option PoseArg)
| Call_move_to_neutral (arm : option Arm)
| Call_select_gripper_for_object (object_id : string)
| Call_sample_task_space_pose (clip_z : bool)
| Call_measure_distance (arm : Arm)
| Call_estimate_object_position (arm : Arm) (center : Q * Q)
| Assign_z_table (z : Q).

Definition perform (c : Call) : M unit :=
  match c with
  | Call_ik arm pose => ik arm pose ;;; ret tt
  | Call_ik_either_limb pose => ik_either_limb pose ;;; ret tt
  | Call_move_to_neutral arm => move_to_neutral arm
  | Call_select_gripper_for_object o => select_gripper_for_object o ;;; ret tt
  | Call_sample_task_space_pose clip_z =>
      sample_task_space_pose clip_z ;;; ret tt
  | Call_measure_distance arm => measure_distance arm ;;; ret tt
  | Call_estimate_object_position arm center =>
      estimate_object_position arm center ;;; ret tt
  | Assign_z_table z => modify (set_self (with_z_table z))
  end.

Definition session (calls : list Call) : M unit :=
  for_each calls
    (fun c _ => try_except (perform c) (fun _ => true) (fun _ => ret tt)) tt.

Definition round_trip (gripper : bool) (calls : list Call)
  (gripper' : bool) : M unit :=
  set_up gripper ;;; session calls ;;; clean_up gripper'.

End Kinematics.

(** ** A bench configuration

    One concrete robot, used to run the methods: the left arm carries the
    wide fingers in slot 1, the right arm the narrow fingers in slot 4. *)

Definition bench_limits : gmap string Q :=
  list_to_map
    [ ("x_min"%string, 0.4); ("x_max"%string, 0.8);
      ("y_min"%string, -0.3); ("y_max"%string, 0.3);
      ("z_min"%string, -0.2); ("z_max"%string, 0.3);
      ("roll_min"%string, -1.0); ("roll_max"%string, 1.0);
      ("pitch_min"%string, -1.0); ("pitch_max"%string, 1.0);
      ("yaw_min"%string, -1.0); ("yaw_max"%string, 1.0) ].

Definition bench_sizes : gmap string Q :=
  list_to_map
    [ ("mug"%string, 0.080); ("nut"%string, 0.005);
      ("peg"%string, 0.052); ("can"%string, 0.073);
      ("pen"%string, 0.014) ].

Definition bench_settings : Settings :=
  {| task_space_limits_m := bench_limits;
     object_size_meters := bench_sizes;
     gripper_settings := fun a =>
       match a with
       | Left => ("wide"%string, 1%Z)
       | Right => ("narrow"%string, 4%Z)
       end |}.

(** Both arms with the narrow fingers in slot 2. *)
Definition twin_settings : Settings :=
  {| task_space_limits_m := bench_limits;
     object_size_meters := bench_sizes;
     gripper_settings := fun _ => ("narrow"%string, 2%Z) |}.

Definition bench_joints (a : Arm) : gmap string Q :=
  match a with
  | Left => {[ "left_s0"%string := 0.1 ]}
  | Right => {[ "right_s0"%string := -0.1 ]}
  end.

(** The gripper looks straight down from 0.158155 m above the base
    frame. *)
Definition bench_endpoint : Pose :=
  {| position := (0.5, 0, 0.158155); orientation := (1, 0, 0, 0) |}.

(** The solver rejects every pose for the left arm and accepts every pose
    for the right arm. *)
Definition bench_ik (a : Arm) (pq : PoseStamped) : IKOutcome :=
  match a with
  | Left => IKResponse false [] []
  | Right => IKResponse true ["right_s0"%string; "right_s1"%string] [0.3; 0.4]
  end.

Definition bench_world : World :=
  {| rs_enabled := false;
     limb_endpoint_pose := fun _ => bench_endpoint;
     limb_joint_angles := bench_joints;
     sensor_state := fun a => match a with Left => 500%Z | Right => 70000%Z end;
     ik_service := bench_ik;
     random_stream := fun _ => 0.5;
     random_pos := 0 |}.

Definition bench : State :=
  {| world := bench_world; settings := bench_settings;
     self := Baxter_init; trace := [] |}.

Definition twin_bench : State :=
  {| world := bench_world; settings := twin_settings;
     self := Baxter_init; trace := [] |}.

(** The bench after [set_up], with the table height measured as [z]. *)
Definition bench_calibrated (z : Q) : State :=
  set_self (with_z_table z) (exec (set_up true) bench).

(** Stand-ins for the imported helpers: a seven-element list is a pose, the
    gripper frame is the base frame turned upside down and moved to the
    end point, and a pose list starts with the translation of the
    matrix. *)
Definition bench_list_to_pose_msg (l : list Q) : option Pose :=
  match l with
  | [x; y; z; qx; qy; qz; qw] =>
      Some {| position := (x, y, z); orientation := (qx, qy, qz, qw) |}
  | _ => None
  end.

Definition bench_pose_dict_to_hom (p : Pose) : Mat4 :=
  let '(x, y, z) := position p in
  {| row0 := vec4 1 0 0 x; row1 := vec4 0 (-1) 0 y;
     row2 := vec4 0 0 (-1) z; row3 := vec4 0 0 0 1 |}.

Definition bench_hom_to_list (m : Mat4) : list Q :=
  [v3 (row0 m); v3 (row1 m); v3 (row2 m); 0; 0; 0].

(** A camera that sees the table 1.1 mm further away than it is. *)
Definition bench_projection (mpp : option Q) (pixel : Q * Q) (z : Q)
  : list Q :=
  [0; 0; z + 0.0011].

(** ** More bench configurations *)

(** The bench with other objects on it. *)
Definition pantry_sizes : gmap string Q :=
  list_to_map [ ("jar"%string, 0.074); ("lid"%string, 0.060) ].

Definition pantry : State :=
  set_settings
    (fun c =>
       {| task_space_limits_m := task_space_limits_m c;
          object_size_meters := pantry_sizes;
          gripper_settings := gripper_settings c |}) bench.

(** ** Reading a sampled pose against its limits *)

(** The twelve keys [sample_pose] reads, an axis at a time. *)
Definition axis_keys : list (string * string) :=
  [ ("x_max"%string, "x_min"%string); ("y_max"%string, "y_min"%string);
    ("z_max"%string, "z_min"%string);
    ("roll_max"%string, "roll_min"%string);
    ("pitch_max"%string, "pitch_min"%string);
    ("yaw_max"%string, "yaw_min"%string) ].

(** [v] is a value of the closed interval that [lim] gives for one
    axis. *)
Definition within_axis (lim : gmap string Q) (k : string * string) (v : Q)
  : Prop :=
  exists hi lo,
    lim !! fst k = Some hi /\ lim !! snd k = Some lo /\
    lo <= v /\ v <= hi.

(** The [n] draws of the random source that follow those already made. *)
Definition next_draws (s : State) (n : nat) : list Q :=
  map (fun i => random_stream (world s) (random_pos (world s) + i)%nat)
    (seq 0 n).

(** ** Reading the pose argument of [ik] *)

(** The message [_stamp_pose] wraps for a pose argument, when
    [list_to_pose_msg] accepts it. *)
Definition pose_of (list_to_pose_msg : list Q -> option Pose)
  (p : PoseArg) : option Pose :=
  match p with
  | PoseMsg m => Some m
  | PoseList l => list_to_pose_msg l
  end.

Definition stamped (m : Pose) : PoseStamped :=
  {| frame_id := "base"; pose_msg := m |}.

(** The bench with the solvers out of order: waiting for the left one
    times out, the right one fails on the request. *)
Definition outage : State :=
  set_world
    (fun w =>
       {| rs_enabled := rs_enabled w;
          limb_endpoint_pose := limb_endpoint_pose w;
          limb_joint_angles := limb_joint_angles w;
          sensor_state := sensor_state w;
          ik_service := fun a _ =>
            match a with
            | Left => ServiceTimeout
            | Right => ServiceFailure
            end;
          random_stream := random_stream w;
          random_pos := random_pos w |}) bench.

(** The other way round: the request of the left solver fails, although
    the right one would answer. *)
Definition failing : State :=
  set_world
    (fun w =>
       {| rs_enabled := rs_enabled w;
          limb_endpoint_pose := limb_endpoint_pose w;
          limb_joint_angles := limb_joint_angles w;
          sensor_state := sensor_state w;
          ik_service := fun a pq =>
            match a with
            | Left => ServiceFailure
            | Right => ik_service w Right pq
            end;
          random_stream := random_stream w;
          random_pos := random_pos w |}) bench.

Definition bench_pose : Pose :=
  {| position := (0.6, 0.1, -0.1); orientation := (1, 0, 0, 0) |}.

(** Two vectors with equal components. *)
Definition vec_eq (a b : Vec4) : Prop :=
  v0 a == v0 b /\ v1 a == v1 b /\ v2 a == v2 b /\ v3 a == v3 b.

(** A camera that projects every pixel to a point at the distance it is
    given. *)
Definition ideal_projection (mpp : option Q) (pixel : Q * Q) (z : Q)
  : list Q :=
  [0.01; 0.02; z].

(** ** Moving the limbs

    [control], [plan], [move_to_config] and [move_to_pose] command the
    limbs.  The commands are kept in a list of their own beside the state
    of the methods above, and [NotImplementedError] joins the
    exceptions. *)

From Stdlib Require Import Ascii.

Inductive Command : Type :=
| Limb_move_to_joint_positions (a : Arm) (q : gmap string Q).

Record Rig : Type := {
  robot : State;
  commands : list Command
}.

Inductive Failure : Type :=
| Base (e : Exn)
| NotImplementedError (m : string).

Inductive Outcome (A : Type) : Type :=
| Done (a : A)
| Failed (e : Failure).
Arguments Done {A} a.
Arguments Failed {A} e.

Definition Motion (A : Type) : Type := Rig -> Outcome A * Rig.

Definition finish {A} (a : A) : Motion A := fun r => (Done a, r).

Definition fail {A} (e : Failure) : Motion A := fun r => (Failed e, r).

Definition and_then {A B} (m : Motion A) (k : A -> Motion B) : Motion B :=
  fun r =>
    match m r with
    | (Done a, r') => k a r'
    | (Failed e, r') => (Failed e, r')
    end.

(** A method of the object, run on the robot of the rig. *)
Definition lift {A} (m : M A) : Motion A :=
  fun r =>
    match m (robot r) with
    | (Ok a, s') => (Done a, {| robot := s'; commands := commands r |})
    | (Raise e, s') =>
        (Failed (Base e), {| robot := s'; commands := commands r |})
    end.

Definition command (c : Command) : Motion unit :=
  fun r => (Done tt, {| robot := robot r; commands := commands r ++ [c] |}).

Declare Scope motion_scope.
Delimit Scope motion_scope with motion.
Notation "x <- m ;; k" := (and_then m (fun x => k))
  (at level 100, m at next level, right associativity) : motion_scope.
Notation "m ;;; k" := (and_then m (fun _ => k))
  (at level 100, right associativity) : motion_scope.

(** [for q in trajectory: body]. *)
Fixpoint for_targets (l : list (gmap string Q))
  (body : gmap string Q -> Motion unit) : Motion unit :=
  match l with
  | [] => finish tt
  | q :: l' => and_then (body q) (fun _ => for_targets l' body)
  end.

(** [k.split('_')[0]]: the part of a key before its first underscore. *)
Fixpoint before_underscore (k : string) : string :=
  match k with
  | EmptyString => EmptyString
  | String c k' =>
      if Ascii.eqb c "_"%char then EmptyString
      else String c (before_underscore k')
  end.

Definition arm_name (a : Arm) : string :=
  match a with Left => "left" | Right => "right" end.

(** [self._limbs[name]]: the dictionary has the two arms. *)
Definition limb_named (name : string) : option Arm :=
  if String.eqb name "left" then Some Left
  else if String.eqb name "right" then Some Right
  else None.

(** What [control] looks at in its argument: whether it is a
    [MotionPlanner], its [controller_type], and the targets it yields. *)
Record Trajectory : Type := {
  is_MotionPlanner : bool;
  controller_type : string;
  targets : list (gmap string Q)
}.

(** A configuration of arm [a]: not empty, every joint name starting with
    the name of the arm. *)
Definition configuration_of (a : Arm) (q : gmap string Q) : Prop :=
  q <> ∅ /\
  forall k, is_Some (q !! k) -> before_underscore k = arm_name a.

Section Motion.

(** [keys] is [dict.keys()], whose order Python leaves open;
    [SimplePlanner_plan] is [self._planner.plan(start=..., end=...)]
    followed by a look at the planner, which the source imports. *)
Variable list_to_pose_msg : list Q -> option Pose.
Variable keys : gmap string Q -> list string.
Variable SimplePlanner_plan :
  gmap string Q -> gmap string Q -> Outcome Trajectory.

Local Open Scope motion_scope.

(** [self._limbs[q.keys()[0].split('_')[0]]]. *)
Definition limb_of (q : gmap string Q) : Motion Arm :=
  match keys q with
  | [] => fail (Base IndexError)
  | k :: _ =>
      match limb_named (before_underscore k) with
      | Some a => finish a
      | None => fail (Base KeyError)
      end
  end.

Definition control (trajectory : Trajectory) : Motion unit :=
  if negb (is_MotionPlanner trajectory) then fail (Base TypeError)
  else if String.eqb (controller_type trajectory) "position" then
    for_targets (targets trajectory)
      (fun q =>
         arm <- limb_of q ;;
         command (Limb_move_to_joint_positions arm q))
  else if String.eqb (controller_type trajectory) "velocity" then
    fail (NotImplementedError "Need to implement velocity control!")
  else if String.eqb (controller_type trajectory) "torque" then
    fail (NotImplementedError "Need to implement torque control!")
  else fail (Base KeyError).

Definition plan (target : gmap string Q) : Motion Trajectory :=
  arm <- limb_of target ;;
  start <- lift (gets (fun s => limb_joint_angles (world s) arm)) ;;
  fun r => (SimplePlanner_plan start target, r).

Definition move_to_config (config : gmap string Q) : Motion unit :=
  trajectory <- plan config ;;
  control trajectory.

Definition move_to_pose (arm : Arm) (pose : option PoseArg) : Motion unit :=
  config <- lift (ik list_to_pose_msg arm pose) ;;
  move_to_config config.

End Motion.

(** The keys of a dictionary in the order of its entries. *)
Definition bench_keys (q : gmap string Q) : list string :=
  (map_to_list q).*1.

(** A planner that goes to the target in one step, in position mode. *)
Definition bench_planner (start target : gmap string Q)
  : Outcome Trajectory :=
  Done {| is_MotionPlanner := true; controller_type := "position";
          targets := [target] |}.

Definition bench_rig : Rig := {| robot := bench; commands := [] |}.

(** Trajectories for the bench: two steps in position mode, the same with
    an empty target in between, and one in velocity mode. *)
Definition bench_trajectory : Trajectory :=
  {| is_MotionPlanner := true; controller_type := "position";
     targets := [ {[ "left_s0"%string := 0.1 ]};
                  {[ "right_s0"%string := 0.2 ]} ] |}.

Definition broken_trajectory : Trajectory :=
  {| is_MotionPlanner := true; controller_type := "position";
     targets := [ {[ "left_s0"%string := 0.1 ]}; ∅;
                  {[ "right_s0"%string := 0.2 ]} ] |}.

Definition velocity_trajectory : Trajectory :=
  {| is_MotionPlanner := true; controller_type := "velocity";
     targets := [ {[ "left_s0"%string := 0.1 ]} ] |}.

(** The bench with a solver that accepts every pose and names no joint. *)
Definition mute_rig : Rig :=
  {| robot :=
       set_world
         (fun w =>
            {| rs_enabled := rs_enabled w;
               limb_endpoint_pose := limb_endpoint_pose w;
               limb_joint_angles := limb_joint_angles w;
               sensor_state := sensor_state w;
               ik_service := fun _ _ => IKResponse true [] [];
               random_stream := random_stream w;
               random_pos := random_pos w |}) bench;
     commands := [] |}.

(** ** Keyboard instruction ([instruction/keyboard.py])

    The console is what the user types, one evaluated [input()] at a
    time, and what has been printed. *)

(** What Python 2 [input()] hands back for a line: an [int], a value of
    another type, or an exception when the line does not evaluate. *)
Inductive Typed : Type :=
| IntTyped (z : Z)
| OtherTyped
| Unevaluable.

Inductive Printed : Type :=
| Prompt (s : string)
| Line (s : string).

Inductive Reply (A : Type) : Type :=
| Answer (a : A)
| EOFError
| EvalError.
Arguments Answer {A} a.
Arguments EOFError {A}.
Arguments EvalError {A}.

Definition _object_ids : gmap Z string :=
  list_to_map
    [ (1%Z, "hand"%string); (2%Z, "remote"%string);
      (3%Z, "cellphone"%string); (4%Z, "mouse"%string);
      (5%Z, "bottle"%string); (6%Z, "cup"%string); (7%Z, "ball"%string) ].

Definition _target_ids : gmap Z string :=
  list_to_map [ (1%Z, "hand"%string); (2%Z, "table"%string) ].

Definition not_an_integer : string :=
  "Identifier must be an integer. Try again.".

Definition not_valid : string := "Not a valid identifier. Try again.".

(** The loop of [get_int_in_dict]: it ends with the first usable line, or
    with the exception of [input()] when the lines run out. *)
Fixpoint get_int_in_dict (s : string) (d : gmap Z string)
  (typed : list Typed) (printed : list Printed)
  : Reply string * list Typed * list Printed :=
  match typed with
  | [] => (EOFError, [], printed ++ [Prompt s])
  | identifier :: rest =>
      let printed := printed ++ [Prompt s] in
      match identifier with
      | Unevaluable => (EvalError, rest, printed)
      | OtherTyped =>
          get_int_in_dict s d rest (printed ++ [Line not_an_integer])
      | IntTyped z =>
          if (z =? 0)%Z then (Answer "exit"%string, rest, printed)
          else
            match d !! z with
            | Some v => (Answer v, rest, printed)
            | None => get_int_in_dict s d rest (printed ++ [Line not_valid])
            end
      end
  end.

Definition object_prompt : string := "Input integer object id: ".
Definition target_prompt : string := "Input integer target id: ".

Definition instruct (typed : list Typed) (printed : list Printed)
  : Reply string * list Typed * list Printed :=
  match get_int_in_dict object_prompt _object_ids typed printed with
  | (Answer oid, rest, out) =>
      if String.eqb oid "exit" then (Answer oid, rest, out)
      else
        match get_int_in_dict target_prompt _target_ids rest out with
        | (Answer tid, rest', out') =>
            if String.eqb tid "exit" then (Answer tid, rest', out')
            else (Answer (oid ++ " " ++ tid)%string, rest', out')
        | failure => failure
        end
  | failure => failure
  end.

(** A line the loop answers with a message and another prompt. *)
Definition turned_down (d : gmap Z string) (x : Typed) : Prop :=
  x = OtherTyped \/ exists z, x = IntTyped z /\ z <> 0%Z /\ d !! z = None.

(** An [int] that ends the loop with the value [v]: 0 with ['exit'], a key
    with its value. *)
Definition usable (d : gmap Z string) (z : Z) (v : string) : Prop :=
  (z = 0%Z /\ v = "exit"%string) \/ (z <> 0%Z /\ d !! z = Some v).

(** What is printed for a line that is turned down. *)
Definition retry (s : string) (x : Typed) : list Printed :=
  match x with
  | IntTyped _ => [Prompt s; Line not_valid]
  | _ => [Prompt s; Line not_an_integer]
  end.


(** * Properties *)

(** ** Comparisons *)

Lemma Qgtb_true (x y : Q) : Qgtb x y = true <-> y < x.
Proof.
  unfold Qgtb. rewrite negb_true_iff.
  split; intros H.
  - apply Qnot_le_lt. intros Hle. apply Qle_bool_iff in Hle. congruence.
  - destruct (Qle_bool x y) eqn:E; [|reflexivity].
    apply Qle_bool_iff in E. lra.
Qed.

Lemma Qgtb_false (x y : Q) : Qgtb x y = false <-> x <= y.
Proof.
  unfold Qgtb. rewrite negb_false_iff. apply Qle_bool_iff.
Qed.

Lemma Qltb_true (x y : Q) : Qltb x y = true <-> x < y.
Proof. apply (Qgtb_true y x). Qed.

Lemma Qltb_false (x y : Q) : Qltb x y = false <-> y <= x.
Proof. apply (Qgtb_false y x). Qed.

Lemma Qle_bool_false (x y : Q) : Qle_bool x y = false <-> y < x.
Proof.
  rewrite <- (Qgtb_true x y). unfold Qgtb. now rewrite negb_true_iff.
Qed.

Lemma Qeq_bool_false (x y : Q) : Qeq_bool x y = false <-> ~ x == y.
Proof.
  split.
  - intros H E. apply Qeq_bool_iff in E. congruence.
  - intros H. destruct (Qeq_bool x y) eqn:E; [|reflexivity].
    apply Qeq_bool_iff in E. contradiction.
Qed.

(** Turn the outcome of every test in the context into an inequality. *)
Ltac reflect_tests :=
  repeat match goal with
  | H : _ && _ = true |- _ => apply andb_true_iff in H; destruct H
  | H : _ && _ = false |- _ => apply andb_false_iff in H; destruct H
  | H : Qle_bool _ _ = true |- _ => apply Qle_bool_iff in H
  | H : Qle_bool _ _ = false |- _ => apply Qle_bool_false in H
  | H : Qgtb _ _ = true |- _ => apply Qgtb_true in H
  | H : Qgtb _ _ = false |- _ => apply Qgtb_false in H
  | H : Qltb _ _ = true |- _ => apply Qltb_true in H
  | H : Qltb _ _ = false |- _ => apply Qltb_false in H
  | H : Qeq_bool _ _ = true |- _ => apply Qeq_bool_iff in H
  | H : Qeq_bool _ _ = false |- _ => apply Qeq_bool_false in H
  end.

(** Inside its range, the nearer boundary of a size is one of the two
    differences. *)
Lemma nearer_boundary_inside (lo hi size : Q) :
  lo <= size -> size < hi ->
  (nearer_boundary (lo, hi) size == size - lo /\ size - lo <= hi - size) \/
  (nearer_boundary (lo, hi) size == hi - size /\ hi - size <= size - lo).
Proof.
  intros Hlo Hhi. unfold nearer_boundary. cbn [fst snd].
  assert (E1 : Qabs (lo - size) == size - lo).
  { rewrite Qabs_neg by lra. lra. }
  assert (E2 : Qabs (hi - size) == hi - size).
  { rewrite Qabs_pos by lra. lra. }
  destruct (Q.min_spec (Qabs (lo - size)) (Qabs (hi - size)))
    as [[Hlt E]|[Hle E]]; rewrite E; [left | right]; lra.
Qed.

Lemma nearer_boundary_nonneg (gr : Q * Q) (size : Q) :
  0 <= nearer_boundary gr size.
Proof.
  unfold nearer_boundary. apply Q.min_glb; apply Qabs_nonneg.
Qed.

(** ** States that differ by what was logged *)

Lemma only_trace_grew_refl (s : State) : only_trace_grew s s.
Proof.
  unfold only_trace_grew. repeat split. exists []. now rewrite app_nil_r.
Qed.

Lemma only_trace_grew_trans (s1 s2 s3 : State) :
  only_trace_grew s1 s2 -> only_trace_grew s2 s3 -> only_trace_grew s1 s3.
Proof.
  intros (Hw & Hc & Hb & e1 & Ht) (Hw' & Hc' & Hb' & e2 & Ht').
  unfold only_trace_grew. repeat split; try congruence.
  exists (e1 ++ e2). rewrite Ht', Ht. now rewrite app_assoc.
Qed.

Lemma only_trace_grew_emit (s : State) (e : Event) :
  only_trace_grew s (set_trace (fun t => t ++ [e]) s).
Proof.
  unfold only_trace_grew. repeat split. now exists [e].
Qed.


(** ** Frame rules of the monad *)

Lemma bind_ok {A B} (m : M A) (k : A -> M B) (s s1 : State) (a : A) :
  m s = (Ok a, s1) -> bind m k s = k a s1.
Proof. intros E. unfold bind. now rewrite E. Qed.

Lemma bind_raise {A B} (m : M A) (k : A -> M B) (s s1 : State) (e : Exn) :
  m s = (Raise e, s1) -> bind m k s = (Raise e, s1).
Proof. intros E. unfold bind. now rewrite E. Qed.

Section Frames.

Context (R : State -> State -> Prop) `{!Reflexive R} `{!Transitive R}.

Lemma respects_ret {A} (a : A) : respects R (ret a).
Proof. intros s. cbn. reflexivity. Qed.

Lemma respects_raise {A} (e : Exn) : respects R (@raise A e).
Proof. intros s. cbn. reflexivity. Qed.

Lemma respects_gets {A} (f : State -> A) : respects R (gets f).
Proof. intros s. cbn. reflexivity. Qed.

Lemma respects_bind {A B} (m : M A) (k : A -> M B) :
  respects R m -> (forall a, respects R (k a)) -> respects R (bind m k).
Proof.
  intros Hm Hk s. unfold bind. specialize (Hm s).
  destruct (m s) as [[a|e] s1]; cbn in *; [|assumption].
  etransitivity; [exact Hm | apply Hk].
Qed.

Lemma respects_try_except {A} (m : M A) (sel : Exn -> bool)
  (h : Exn -> M A) :
  respects R m -> (forall e, respects R (h e)) ->
  respects R (try_except m sel h).
Proof.
  intros Hm Hh s. unfold try_except. specialize (Hm s).
  destruct (m s) as [[a|e] s1]; cbn in *; [assumption|].
  destruct (sel e); [|assumption].
  etransitivity; [exact Hm | apply Hh].
Qed.

Lemma respects_for_each {A B} (l : list A) (body : A -> B -> M B) :
  (forall x acc, respects R (body x acc)) ->
  forall acc, respects R (for_each l body acc).
Proof.
  intros Hb. induction l as [|x l IH]; intros acc; cbn [for_each].
  - apply respects_ret.
  - apply respects_bind; [apply Hb | apply IH].
Qed.

Lemma respects_getitem {K V} `{Countable K} (d : gmap K V) (k : K) :
  respects R (getitem d k).
Proof.
  unfold getitem. destruct (d !! k); [apply respects_ret|apply respects_raise].
Qed.

Lemma respects_list_getitem (l : list Q) (i : nat) :
  respects R (list_getitem l i).
Proof.
  unfold list_getitem.
  destruct (l !! i); [apply respects_ret|apply respects_raise].
Qed.

End Frames.

#[local] Instance only_trace_grew_Reflexive : Reflexive only_trace_grew.
Proof. exact only_trace_grew_refl. Qed.

#[local] Instance only_trace_grew_Transitive : Transitive only_trace_grew.
Proof. exact only_trace_grew_trans. Qed.

#[local] Instance enablement_kept_Reflexive : Reflexive enablement_kept.
Proof. intros s. now unfold enablement_kept. Qed.

#[local] Instance enablement_kept_Transitive : Transitive enablement_kept.
Proof.
  intros s1 s2 s3 (H1 & H2 & H3) (H1' & H2' & H3').
  unfold enablement_kept. repeat split; congruence.
Qed.

#[local] Instance settings_kept_Reflexive : Reflexive settings_kept.
Proof. intros s. reflexivity. Qed.

#[local] Instance settings_kept_Transitive : Transitive settings_kept.
Proof. intros s1 s2 s3 H1 H2. unfold settings_kept in *. congruence. Qed.

Lemma only_trace_grew_enablement (s s' : State) :
  only_trace_grew s s' -> enablement_kept s s'.
Proof.
  intros (Hw & _ & Hb & _). unfold enablement_kept. now rewrite Hw, Hb.
Qed.

Lemma only_trace_grew_settings (s s' : State) :
  only_trace_grew s s' -> settings_kept s s'.
Proof. intros (_ & Hc & _). exact Hc. Qed.

Lemma respects_weaken (R R' : State -> State -> Prop) {A} (m : M A) :
  (forall s s', R s s' -> R' s s') -> respects R m -> respects R' m.
Proof. intros H Hm s. apply H, Hm. Qed.

Lemma respects_emit_trace (e : Event) : respects only_trace_grew (emit e).
Proof. intros s. apply only_trace_grew_emit. Qed.

Lemma respects_log_trace (lvl : Level) (m : Msg) :
  respects only_trace_grew (log lvl m).
Proof. apply respects_emit_trace. Qed.

Lemma respects_emit_enablement (e : Event) :
  respects enablement_kept (emit e).
Proof.
  apply (respects_weaken only_trace_grew); [|apply respects_emit_trace].
  apply only_trace_grew_enablement.
Qed.

Lemma respects_emit_settings (e : Event) : respects settings_kept (emit e).
Proof. intros s. reflexivity. Qed.

Lemma respects_random_sample_settings : respects settings_kept random_sample.
Proof. intros s. reflexivity. Qed.

Lemma respects_random_sample_enablement :
  respects enablement_kept random_sample.
Proof. intros s. cbn. now unfold enablement_kept. Qed.

Lemma respects_borders_setitem_enablement (k : string) (v : Q) :
  respects enablement_kept (borders_setitem k v).
Proof. intros s. cbn. now unfold enablement_kept. Qed.

Lemma respects_z_table_enablement (z : Q) :
  respects enablement_kept (modify (set_self (with_z_table z))).
Proof. intros s. cbn. now unfold enablement_kept. Qed.

Create HintDb frames discriminated.
#[local] Hint Resolve respects_emit_trace respects_log_trace
  respects_emit_enablement respects_emit_settings
  respects_random_sample_settings respects_random_sample_enablement
  respects_borders_setitem_enablement respects_z_table_enablement : frames.

(** Walk through a computation, one construct of the monad at a time. *)
Ltac rule L := apply L; try typeclasses eauto.

Ltac frame :=
  repeat first
    [ rule respects_ret
    | rule respects_raise
    | rule respects_gets
    | rule respects_getitem
    | rule respects_list_getitem
    | solve [auto with frames]
    | rule respects_for_each; intros ? ?
    | rule respects_try_except; [|intros ?]
    | rule respects_bind; [|intros ?]
    | match goal with
      | |- respects _ (if ?b then _ else _) => destruct b
      | |- respects _ (match ?x with _ => _ end) => destruct x
      | |- respects _ (let '(_, _) := ?x in _) => destruct x
      end ].

Lemma select_gripper_for_object_frame (object_id : string) :
  respects only_trace_grew (select_gripper_for_object object_id).
Proof. unfold select_gripper_for_object, select_gripper_body. frame. Qed.

Lemma measure_distance_frame (arm : Arm) :
  respects only_trace_grew (measure_distance arm).
Proof. unfold measure_distance. frame. Qed.

Lemma move_to_neutral_frame (arm : option Arm) :
  respects only_trace_grew (move_to_neutral arm).
Proof. unfold move_to_neutral. frame. Qed.

Lemma sample_pose_settings (lim : gmap string Q) :
  respects settings_kept (sample_pose lim).
Proof. unfold sample_pose, sample_coordinate. frame. Qed.

Lemma sample_task_space_pose_enablement (clip_z : bool) :
  respects enablement_kept (sample_task_space_pose clip_z).
Proof.
  unfold sample_task_space_pose, sample_pose, sample_coordinate. frame.
Qed.

Section KinematicsFrames.

Variable list_to_pose_msg : list Q -> option Pose.
Variable pose_dict_to_hom : Pose -> Mat4.
Variable hom_to_list : Mat4 -> list Q.
Variable projection_pixel_to_camera : option Q -> Q * Q -> Q -> list Q.

Lemma ik_frame (arm : Arm) (pose : option PoseArg) :
  respects only_trace_grew (ik list_to_pose_msg arm pose).
Proof.
  unfold ik, _stamp_pose, call_ik_service. frame.
Qed.

Lemma ik_either_limb_frame (pose : option PoseArg) :
  respects only_trace_grew (ik_either_limb list_to_pose_msg pose).
Proof.
  unfold ik_either_limb. pose proof ik_frame. frame.
Qed.

Lemma estimate_object_position_frame (arm : Arm) (center : Q * Q) :
  respects only_trace_grew
    (estimate_object_position pose_dict_to_hom hom_to_list
       projection_pixel_to_camera arm center).
Proof.
  unfold estimate_object_position, camera_pose, hom_camera_to_robot,
    hom_gripper_to_robot.
  frame.
Qed.

Lemma perform_enablement (c : Call) :
  respects enablement_kept
    (perform list_to_pose_msg pose_dict_to_hom hom_to_list
       projection_pixel_to_camera c).
Proof.
  pose proof sample_task_space_pose_enablement.
  pose proof respects_z_table_enablement.
  assert (Hw : forall A (m : M A),
             respects only_trace_grew m -> respects enablement_kept m).
  { intros A m. apply respects_weaken, only_trace_grew_enablement. }
  pose proof (fun a p => Hw _ _ (ik_frame a p)).
  pose proof (fun p => Hw _ _ (ik_either_limb_frame p)).
  pose proof (fun a => Hw _ _ (move_to_neutral_frame a)).
  pose proof (fun o => Hw _ _ (select_gripper_for_object_frame o)).
  pose proof (fun a => Hw _ _ (measure_distance_frame a)).
  pose proof (fun a c => Hw _ _ (estimate_object_position_frame a c)).
  destruct c; cbn [perform]; frame.
Qed.

Lemma session_enablement (calls : list Call) :
  respects enablement_kept
    (session list_to_pose_msg pose_dict_to_hom hom_to_list
       projection_pixel_to_camera calls).
Proof.
  unfold session. pose proof perform_enablement. frame.
Qed.

Lemma session_returns (calls : list Call) (s : State) :
  run (session list_to_pose_msg pose_dict_to_hom hom_to_list
         projection_pixel_to_camera calls) s = Ok tt.
Proof.
  unfold session, run. revert s.
  induction calls as [|c calls IH]; intros s; [reflexivity|].
  cbn [for_each]. unfold bind at 1, try_except at 1.
  destruct (perform _ _ _ _ c s) as [[[]|e] s1]; cbn; apply IH.
Qed.

End KinematicsFrames.

(** ** Gripper selection *)

(** Every range of the table starts at or above zero and is not empty. *)
Lemma gripper_ranges_bounds (k : string * Z) (lo hi : Q) :
  _gripper_ranges_meters !! k = Some (lo, hi) -> 0 <= lo /\ lo < hi.
Proof.
  unfold _gripper_ranges_meters. intros H.
  apply elem_of_list_to_map_2 in H.
  repeat (apply elem_of_cons in H; destruct H as [H|H];
          [injection H as _ -> ->; split; reflexivity || (now compute) |]).
  now apply elem_of_nil in H.
Qed.

Lemma select_gripper_body_run (size : Q) (a : Arm) (loc : Selection)
  (s : State) (gr : Q * Q) :
  installed_range (settings s) a = Some gr ->
  exists s', select_gripper_body size a loc s
             = (Ok (select_step size a gr loc), s')
             /\ only_trace_grew s s'.
Proof.
  unfold installed_range, select_gripper_body, select_step, nearer_boundary.
  intros Hgr.
  unfold bind at 1, gets at 1. unfold getitem, bind at 1.
  rewrite Hgr. unfold ret at 1.
  destruct (Qle_bool (fst gr) size && Qltb size (snd gr));
    [|eexists; split; [reflexivity | apply only_trace_grew_refl]].
  cbv zeta.
  destruct (Qgtb _ 0.0);
    [|eexists; split; [reflexivity | apply only_trace_grew_refl]].
  unfold bind, log, emit, modify.
  repeat match goal with
         | |- context [if ?b then _ else _] => destruct b
         end;
    (eexists; split; [reflexivity | apply only_trace_grew_emit]).
Qed.

Lemma select_gripper_for_object_run (object_id : string) (s : State)
  (size : Q) (gl gr : Q * Q) :
  object_size_meters (settings s) !! object_id = Some size ->
  installed_range (settings s) Left = Some gl ->
  installed_range (settings s) Right = Some gr ->
  exists s',
    select_gripper_for_object object_id s
    = (match sel_arm (select_step size Right gr
                        (select_step size Left gl select_init)) with
       | Some arm => Ok arm
       | None =>
           Raise (ValueError (NoSuitableGripper object_id size
                                (fst gl) (snd gl) (fst gr) (snd gr)))
       end, s')
    /\ only_trace_grew s s'.
Proof.
  intros Hsize Hl Hr.
  unfold select_gripper_for_object.
  unfold bind at 1, gets at 1. unfold bind at 1, getitem at 1.
  rewrite Hsize. unfold ret at 1.
  unfold bind at 1, _arms, for_each.
  destruct (select_gripper_body_run size Left select_init s gl Hl)
    as (s1 & E1 & G1).
  unfold bind at 1. rewrite E1.
  assert (Hr1 : installed_range (settings s1) Right = Some gr).
  { destruct G1 as (_ & -> & _). exact Hr. }
  destruct (select_gripper_body_run size Right
              (select_step size Left gl select_init) s1 gr Hr1)
    as (s2 & E2 & G2).
  unfold bind at 1. rewrite E2. unfold ret at 1.
  pose proof (only_trace_grew_trans _ _ _ G1 G2) as G.
  destruct (sel_arm _) as [arm|].
  - unfold bind, log, emit, modify, ret. eexists. split; [reflexivity|].
    eapply only_trace_grew_trans; [exact G | apply only_trace_grew_emit].
  - destruct G as (Hw & Hc & Hb & evs & Ht).
    unfold installed_range in Hl, Hr.
    unfold bind, gets, getitem.
    rewrite Hc, Hsize. unfold ret at 1. rewrite Hc, Hl. unfold ret at 1.
    rewrite Hc, Hr. unfold ret, log, emit, modify, raise.
    eexists. split; [reflexivity|].
    eapply only_trace_grew_trans; [|apply only_trace_grew_emit].
    unfold only_trace_grew. repeat split; try assumption. now exists evs.
Qed.

Lemma select_step_skip (size : Q) (a : Arm) (gr : Q * Q) (loc : Selection) :
  ~ (fst gr <= size /\ size < snd gr) \/ size == fst gr ->
  select_step size a gr loc = loc.
Proof.
  intros H. unfold select_step.
  destruct (Qle_bool (fst gr) size && Qltb size (snd gr)) eqn:Hin;
    [|reflexivity].
  cbv zeta. destruct (Qgtb (nearer_boundary gr size) 0.0) eqn:Hpos;
    [|reflexivity].
  exfalso. reflect_tests.
  destruct H as [H|H]; [now apply H|].
  destruct gr as [lo hi]. cbn [fst snd] in *.
  destruct (nearer_boundary_inside lo hi size) as [[E _]|[E ?]]; lra.
Qed.

Lemma select_step_first (size : Q) (a : Arm) (gr : Q * Q) :
  fst gr < size -> size < snd gr ->
  select_step size a gr select_init
  = {| sel_dist := nearer_boundary gr size;
       sel_min_width := if Qgtb (fst gr) 0.0 then fst gr else 0.0;
       sel_arm := Some a |}.
Proof.
  intros Hlo Hhi. unfold select_step, select_init.
  cbn [sel_dist sel_min_width sel_arm].
  destruct gr as [lo hi]. cbn [fst snd] in *.
  assert (Hd : 0 < nearer_boundary (lo, hi) size).
  { destruct (nearer_boundary_inside lo hi size) as [[E _]|[E _]]; lra. }
  destruct (Qle_bool lo size && Qltb size hi) eqn:Hin;
    [|reflect_tests; lra].
  cbv zeta.
  destruct (Qgtb (nearer_boundary (lo, hi) size) 0.0) eqn:Hpos;
    [reflexivity | reflect_tests; lra].
Qed.

Lemma select_step_tie (size : Q) (a b : Arm) (gr : Q * Q) (w : Q) (d : Q) :
  fst gr < size -> size < snd gr ->
  nearer_boundary gr size == d ->
  sel_arm (select_step size a gr
             {| sel_dist := d; sel_min_width := w; sel_arm := Some b |})
  = Some (if Qgtb (fst gr) w then a else b).
Proof.
  intros Hlo Hhi Hd. unfold select_step.
  cbn [sel_dist sel_min_width sel_arm].
  destruct gr as [lo hi]. cbn [fst snd] in *.
  assert (Hp : 0 < nearer_boundary (lo, hi) size).
  { destruct (nearer_boundary_inside lo hi size) as [[E _]|[E _]]; lra. }
  destruct (Qle_bool lo size && Qltb size hi) eqn:Hin;
    [|reflect_tests; lra].
  cbv zeta.
  destruct (Qgtb (nearer_boundary (lo, hi) size) 0.0) eqn:Hpos;
    [|reflect_tests; lra].
  destruct (Qgtb (nearer_boundary (lo, hi) size) d) eqn:Hgt;
    [reflect_tests; lra|].
  destruct (Qeq_bool (nearer_boundary (lo, hi) size) d) eqn:Heq;
    [|reflect_tests; contradiction].
  now destruct (Qgtb lo w).
Qed.

(** C8: when the object's size lies in neither installed range
    ([min <= size < max] fails for both arms), [select_gripper_for_object]
    raises the [ValueError] whose message carries the object, its size and
    the two installed ranges. *)
Theorem select_gripper_none_suitable (s : State) (object_id : string)
  (size l0 l1 r0 r1 : Q) :
  object_size_meters (settings s) !! object_id = Some size ->
  installed_range (settings s) Left = Some (l0, l1) ->
  installed_range (settings s) Right = Some (r0, r1) ->
  ~ (l0 <= size /\ size < l1) ->
  ~ (r0 <= size /\ size < r1) ->
  run (select_gripper_for_object object_id) s
  = Raise (ValueError (NoSuitableGripper object_id size l0 l1 r0 r1)).
Proof.
  intros Hsize Hl Hr Hnl Hnr.
  destruct (select_gripper_for_object_run object_id s size _ _ Hsize Hl Hr)
    as (s' & E & _).
  unfold run. rewrite E. cbn [fst snd].
  rewrite (select_step_skip size Left (l0, l1)) by (left; exact Hnl).
  rewrite (select_step_skip size Right (r0, r1)) by (left; exact Hnr).
  reflexivity.
Qed.

(** A size of 5 mm is below both ranges of the bench: the call raises. *)
Lemma select_gripper_none_suitable_bench :
  run (select_gripper_for_object "nut") bench
  = Raise (ValueError
             (NoSuitableGripper "nut" 0.005 0.071 0.094 0.052 0.075)).
Proof.
  apply (select_gripper_none_suitable bench "nut" 0.005 0.071 0.094
           0.052 0.075).
  - reflexivity.
  - reflexivity.
  - reflexivity.
  - intros [H _]. lra.
  - intros [H _]. lra.
Defined.

(** C1, as the code has it: a size strictly inside the range of one arm
    and outside the range of the other selects that arm; a size equal to
    the lower bound of that range has offset zero, is skipped by the test
    [min_dist > 0.0], and the call raises the [ValueError] of C8. *)
Theorem select_gripper_sole_candidate (s : State) (object_id : string)
  (size : Q) (a : Arm) (lo hi lo' hi' : Q) :
  object_size_meters (settings s) !! object_id = Some size ->
  installed_range (settings s) a = Some (lo, hi) ->
  installed_range (settings s) (other_arm a) = Some (lo', hi') ->
  lo <= size -> size < hi ->
  ~ (lo' <= size /\ size < hi') ->
  (lo < size -> run (select_gripper_for_object object_id) s = Ok a) /\
  (size == lo ->
   exists l0 l1 r0 r1,
     run (select_gripper_for_object object_id) s
     = Raise (ValueError (NoSuitableGripper object_id size l0 l1 r0 r1))).
Proof.
  intros Hsize Ha Hb Hlo Hhi Hout.
  destruct a; cbn [other_arm] in Hb.
  - destruct (select_gripper_for_object_run object_id s size _ _ Hsize Ha Hb)
      as (s' & E & _).
    unfold run. rewrite E. cbn [fst snd]. split.
    + intros Hlt.
      rewrite (select_step_skip size Right (lo', hi')) by (left; exact Hout).
      now rewrite select_step_first.
    + intros Heq.
      rewrite (select_step_skip size Right (lo', hi')) by (left; exact Hout).
      rewrite (select_step_skip size Left (lo, hi)) by (right; exact Heq).
      cbn. eauto 6.
  - destruct (select_gripper_for_object_run object_id s size _ _ Hsize Hb Ha)
      as (s' & E & _).
    unfold run. rewrite E. cbn [fst snd]. split.
    + intros Hlt.
      rewrite (select_step_skip size Left (lo', hi')) by (left; exact Hout).
      now rewrite select_step_first.
    + intros Heq.
      rewrite (select_step_skip size Left (lo', hi')) by (left; exact Hout).
      rewrite (select_step_skip size Right (lo, hi)) by (right; exact Heq).
      cbn. eauto 6.
Qed.

(** A size of 80 mm fits the left arm of the bench only. *)
Lemma select_gripper_sole_candidate_bench :
  run (select_gripper_for_object "mug") bench = Ok Left.
Proof.
  apply (select_gripper_sole_candidate bench "mug" 0.080 Left
           0.071 0.094 0.052 0.075).
  - reflexivity.
  - reflexivity.
  - reflexivity.
  - lra.
  - lra.
  - intros [_ H]. lra.
  - lra.
Defined.

(** C1 as stated fails: 52 mm is the lower bound of the right arm's range
    on the bench and lies outside the left arm's range, and the call
    raises instead of returning the right arm. *)
Lemma select_gripper_lower_bound_rejected :
  object_size_meters (settings bench) !! "peg"%string = Some 0.052 /\
  installed_range (settings bench) Right = Some (0.052, 0.075) /\
  installed_range (settings bench) Left = Some (0.071, 0.094) /\
  (0.052 <= 0.052 /\ 0.052 < 0.075) /\
  ~ (0.071 <= 0.052 /\ 0.052 < 0.094) /\
  run (select_gripper_for_object "peg") bench
  = Raise (ValueError
             (NoSuitableGripper "peg" 0.052 0.071 0.094 0.052 0.075)) /\
  run (select_gripper_for_object "peg") bench <> Ok Right.
Proof.
  repeat split; try reflexivity; try lra; try discriminate.
Qed.

(** C6, as the code has it: when both arms are candidates at the same
    distance from their nearer boundary and that distance is not zero, the
    right arm is chosen if its range starts strictly higher and the left
    arm otherwise, so the chosen arm is one whose lower bound is largest.
    When the common distance is zero, the size is the lower bound of both
    ranges, neither arm passes the test [min_dist > 0.0], and the call
    raises the [ValueError] of a missing gripper. *)
Theorem select_gripper_tie (s : State) (object_id : string)
  (size l0 l1 r0 r1 : Q) :
  object_size_meters (settings s) !! object_id = Some size ->
  installed_range (settings s) Left = Some (l0, l1) ->
  installed_range (settings s) Right = Some (r0, r1) ->
  l0 <= size -> size < l1 ->
  r0 <= size -> size < r1 ->
  nearer_boundary (l0, l1) size == nearer_boundary (r0, r1) size ->
  (0 < nearer_boundary (l0, l1) size ->
   run (select_gripper_for_object object_id) s
   = Ok (if Qgtb r0 l0 then Right else Left) /\
   (if Qgtb r0 l0 then l0 <= r0 else r0 <= l0)) /\
  (nearer_boundary (l0, l1) size == 0 ->
   size == l0 /\ size == r0 /\
   run (select_gripper_for_object object_id) s
   = Raise (ValueError (NoSuitableGripper object_id size l0 l1 r0 r1))).
Proof.
  intros Hsize Hl Hr Hl0 Hl1 Hr0 Hr1 Htie.
  destruct (select_gripper_for_object_run object_id s size _ _ Hsize Hl Hr)
    as (s' & E & _).
  destruct (gripper_ranges_bounds _ _ _ Hl) as [Hl_nonneg _].
  split.
  - intros Hpos.
    assert (Hl_in : l0 < size).
    { destruct (nearer_boundary_inside l0 l1 size) as [[D _]|[D ?]]; lra. }
    assert (Hr_in : r0 < size).
    { destruct (nearer_boundary_inside r0 r1 size) as [[D _]|[D ?]]; lra. }
    split.
    + unfold run. rewrite E. cbn [fst snd].
      rewrite select_step_first by assumption.
      rewrite select_step_tie by (cbn [fst snd]; (assumption || lra)).
      cbn [fst snd].
      destruct (Qgtb l0 0.0) eqn:Hw; [reflexivity|].
      reflect_tests.
      assert (Hz : l0 == 0.0) by lra.
      destruct (Qgtb r0 0.0) eqn:H1, (Qgtb r0 l0) eqn:H2;
        try reflexivity; reflect_tests; lra.
    + destruct (Qgtb r0 l0) eqn:H; reflect_tests; lra.
  - intros Hzero.
    assert (Hl_eq : size == l0).
    { destruct (nearer_boundary_inside l0 l1 size) as [[D _]|[D ?]]; lra. }
    assert (Hr_eq : size == r0).
    { destruct (nearer_boundary_inside r0 r1 size) as [[D _]|[D ?]]; lra. }
    split; [exact Hl_eq|]. split; [exact Hr_eq|].
    unfold run. rewrite E. cbn [fst snd].
    rewrite (select_step_skip size Left (l0, l1)) by (right; exact Hl_eq).
    rewrite (select_step_skip size Right (r0, r1)) by (right; exact Hr_eq).
    reflexivity.
Qed.

(** 73 mm is 2 mm from the nearer boundary of both ranges of the bench;
    the left range starts higher, and the left arm is chosen.  With the
    same fingers on both arms, 14 mm is the lower bound of both ranges and
    the call raises. *)
Lemma select_gripper_tie_bench :
  run (select_gripper_for_object "can") bench = Ok Left /\
  run (select_gripper_for_object "pen") twin_bench
  = Raise (ValueError
             (NoSuitableGripper "pen" 0.014 0.014 0.037 0.014 0.037)).
Proof.
  split.
  - assert (H1 : 0.071 <= 0.073) by lra.
    assert (H2 : 0.073 < 0.094) by lra.
    assert (H3 : 0.052 <= 0.073) by lra.
    assert (H4 : 0.073 < 0.075) by lra.
    assert (Htie : nearer_boundary (0.071, 0.094) 0.073
                   == nearer_boundary (0.052, 0.075) 0.073)
      by reflexivity.
    assert (Hpos : 0 < nearer_boundary (0.071, 0.094) 0.073)
      by reflexivity.
    exact (proj1 (proj1 (select_gripper_tie bench "can" 0.073 0.071 0.094
                           0.052 0.075 eq_refl eq_refl eq_refl
                           H1 H2 H3 H4 Htie) Hpos)).
  - assert (H1 : 0.014 <= 0.014) by lra.
    assert (H2 : 0.014 < 0.037) by lra.
    assert (Htie : nearer_boundary (0.014, 0.037) 0.014
                   == nearer_boundary (0.014, 0.037) 0.014)
      by reflexivity.
    assert (Hzero : nearer_boundary (0.014, 0.037) 0.014 == 0)
      by reflexivity.
    exact (proj2 (proj2 (proj2 (select_gripper_tie twin_bench "pen" 0.014
                                  0.014 0.037 0.014 0.037
                                  eq_refl eq_refl eq_refl
                                  H1 H2 H1 H2 Htie) Hzero))).
Defined.

(** C6 as stated fails: with the same fingers on both arms, a size equal
    to the common lower bound makes both arms candidates at the same
    distance (zero), and the call raises instead of returning an arm. *)
Lemma select_gripper_tie_at_lower_bound :
  object_size_meters (settings twin_bench) !! "pen"%string = Some 0.014 /\
  installed_range (settings twin_bench) Left = Some (0.014, 0.037) /\
  installed_range (settings twin_bench) Right = Some (0.014, 0.037) /\
  (0.014 <= 0.014 /\ 0.014 < 0.037) /\
  nearer_boundary (0.014, 0.037) 0.014 == nearer_boundary (0.014, 0.037) 0.014 /\
  (forall a : Arm, run (select_gripper_for_object "pen") twin_bench <> Ok a) /\
  run (select_gripper_for_object "pen") twin_bench
  = Raise (ValueError
             (NoSuitableGripper "pen" 0.014 0.014 0.037 0.014 0.037)).
Proof.
  repeat split; try reflexivity; try lra; try discriminate.
Qed.

(** ** Distance sensor *)

(** C9: a raw reading of 65000 or more gives [None]; any smaller reading
    gives the reading divided by 1000.  The sensor and the rest of the
    state are left as they were. *)
Theorem measure_distance_sentinel (s : State) (arm : Arm) :
  ((65000 <= sensor_state (world s) arm)%Z ->
   measure_distance arm s = (Ok None, s)) /\
  ((sensor_state (world s) arm < 65000)%Z ->
   measure_distance arm s
   = (Ok (Some (inject_Z (sensor_state (world s) arm) / 1000.0)), s)).
Proof.
  unfold measure_distance, bind, gets.
  split; intros H.
  - apply Z.ltb_ge in H. rewrite H. reflexivity.
  - apply Z.ltb_lt in H. rewrite H. reflexivity.
Qed.

(** On the bench the left sensor reads 500 (half a metre) and the right
    sensor reads 70000 (nothing in range). *)
Lemma measure_distance_bench :
  (exists d, run (measure_distance Left) bench = Ok (Some d) /\ d == 0.5) /\
  run (measure_distance Right) bench = Ok None.
Proof.
  split.
  - exists (inject_Z 500 / 1000.0). split; [|reflexivity].
    unfold run.
    rewrite (proj2 (measure_distance_sentinel bench Left)); [reflexivity|].
    reflexivity.
  - unfold run.
    rewrite (proj1 (measure_distance_sentinel bench Right)); [reflexivity|].
    discriminate.
Defined.


(** ** Sampling *)

(** What [sample_task_space_pose] leaves in
    [settings.task_space_limits_m], whether or not it raised. *)
Lemma sample_task_space_pose_settings (clip_z : bool) (s : State) :
  task_space_limits_m (settings (exec (sample_task_space_pose clip_z) s))
  = <["yaw_min"%string := np_pi]>
      (<["yaw_max"%string := np_pi]>
         (<["pitch_min"%string := 0.0]>
            (<["pitch_max"%string := 0.0]>
               (<["roll_min"%string := np_pi]>
                  (<["roll_max"%string := np_pi]>
                     (if clip_z
                      then <["z_max"%string := 0.0]>
                             (task_space_limits_m (settings s))
                      else task_space_limits_m (settings s))))))).
Proof.
  unfold exec, sample_task_space_pose, borders_setitem, bind, modify, gets,
    ret.
  destruct clip_z;
    match goal with
    | |- context [sample_pose ?d ?st] =>
        rewrite (sample_pose_settings d st)
    end; reflexivity.
Qed.

(** After a call with [clip_z] set, the dictionary of the settings module
    holds [z_max = 0.0], whatever it held before. *)
Lemma sample_task_space_pose_clips_settings (s : State) :
  task_space_limits_m (settings (exec (sample_task_space_pose true) s))
    !! "z_max"%string = Some 0.0.
Proof.
  rewrite sample_task_space_pose_settings.
  rewrite !lookup_insert_ne by done. apply lookup_insert_eq.
Qed.

(** A call without [clip_z] leaves the z interval of the settings module
    as it finds it. *)
Lemma sample_task_space_pose_keeps_z (s : State) (k : string) :
  k = "z_max"%string \/ k = "z_min"%string ->
  task_space_limits_m (settings (exec (sample_task_space_pose false) s))
    !! k = task_space_limits_m (settings s) !! k.
Proof.
  intros Hk. rewrite sample_task_space_pose_settings.
  destruct Hk as [-> | ->]; now rewrite !lookup_insert_ne by done.
Qed.

(** C4, at an input where the code and the claim part: the bench is
    configured with [z_max = 0.3].  A call with [clip_z] set writes
    [z_max = 0.0] into the dictionary of the settings module; with the same
    random draws, a later call without [clip_z] returns z = -0.1, drawn
    from the clipped interval, where a first call without [clip_z] returns
    z = 0.05. *)
Theorem clip_z_outlives_the_call :
  task_space_limits_m (settings bench) !! "z_max"%string = Some 0.3 /\
  task_space_limits_m
    (settings (exec (sample_task_space_pose true) bench))
    !! "z_max"%string = Some 0.0 /\
  (exists pose z,
     run (sample_task_space_pose false) bench = Ok pose /\
     pose !! 2%nat = Some z /\ z == 0.05) /\
  (exists pose z,
     run (sample_task_space_pose false)
       (exec (sample_task_space_pose true) bench) = Ok pose /\
     pose !! 2%nat = Some z /\ z == -0.1).
Proof.
  split; [reflexivity|].
  split; [apply sample_task_space_pose_clips_settings|].
  split.
  - do 2 eexists. split; [vm_compute; reflexivity|].
    split; [reflexivity|]. reflexivity.
  - do 2 eexists. split; [vm_compute; reflexivity|].
    split; [reflexivity|]. reflexivity.
Qed.

(** ** Set-up and shut-down *)

Lemma set_up_run (gripper : bool) (s : State) :
  exists s1,
    set_up gripper s = (Ok tt, s1) /\
    rs_enabled (world s1) = true /\
    _rs (self s1) = true /\
    _init_state (self s1) = Some (rs_enabled (world s)).
Proof.
  destruct gripper; eexists; (split; [reflexivity|]); cbn; auto.
Qed.

Lemma clean_up_run (gripper : bool) (s1 : State) (b : bool) :
  _rs (self s1) = true ->
  _init_state (self s1) = Some b ->
  exists s2 evs,
    clean_up gripper s1 = (Ok tt, s2) /\
    rs_enabled (world s2) = rs_enabled (world s1) && b /\
    trace s2 = trace s1 ++ evs /\
    (In RobotEnable_disable evs <-> b = false).
Proof.
  intros Hrs Hinit.
  unfold clean_up, _arms, for_each, log, emit, modify, bind, gets, ret,
    rs_disable.
  destruct gripper; cbn; rewrite Hinit; destruct b; cbn;
    rewrite ?Hrs; cbn; do 2 eexists;
    (split; [reflexivity|]); cbn;
    (split; [now rewrite ?andb_true_r, ?andb_false_r|]);
    rewrite <- ?app_assoc; (split; [reflexivity|]); cbn;
    intuition congruence.
Qed.

Section Lifecycle.

Variable list_to_pose_msg : list Q -> option Pose.
Variable pose_dict_to_hom : Pose -> Mat4.
Variable hom_to_list : Mat4 -> list Q.
Variable projection_pixel_to_camera : option Q -> Q * Q -> Q -> list Q.

(** C7: [set_up], any session of calls, then [clean_up] returns normally
    and leaves the robot enabled exactly when it was enabled before
    [set_up]; [clean_up] calls [disable] exactly when it was not. *)
Theorem round_trip_restores_enablement (gripper gripper' : bool)
  (calls : list Call) (s : State) :
  run (round_trip list_to_pose_msg pose_dict_to_hom hom_to_list
      projection_pixel_to_camera gripper calls gripper') s = Ok tt /\
  rs_enabled (world (exec (round_trip list_to_pose_msg pose_dict_to_hom hom_to_list
      projection_pixel_to_camera gripper calls gripper') s))
  = rs_enabled (world s) /\
  exists evs,
    trace (exec (round_trip list_to_pose_msg pose_dict_to_hom hom_to_list
      projection_pixel_to_camera gripper calls gripper') s)
    = trace (exec (set_up gripper ;;; session list_to_pose_msg pose_dict_to_hom hom_to_list
      projection_pixel_to_camera calls) s) ++ evs /\
    (In RobotEnable_disable evs <-> rs_enabled (world s) = false).
Proof.
  destruct (set_up_run gripper s) as (s1 & E1 & Hen & Hrs & Hinit).
  pose proof (session_returns list_to_pose_msg pose_dict_to_hom hom_to_list
                projection_pixel_to_camera calls s1) as Hret.
  pose proof (session_enablement list_to_pose_msg pose_dict_to_hom
                hom_to_list projection_pixel_to_camera calls s1)
    as (Hen' & Hrs' & Hinit').
  unfold run in Hret.
  destruct (session list_to_pose_msg pose_dict_to_hom hom_to_list
      projection_pixel_to_camera calls s1) as [r s2] eqn:E2. cbn [fst snd] in *.
  subst r.
  destruct (clean_up_run gripper' s2 (rs_enabled (world s)))
    as (s3 & evs & E3 & Hfin & Htr & Hdis); [congruence | congruence |].
  unfold run, exec, round_trip.
  rewrite !(bind_ok _ _ _ _ _ E1), !(bind_ok _ _ _ _ _ E2), E3.
  cbn [fst snd].
  split; [reflexivity|]. split.
  - rewrite Hfin, Hen', Hen. reflexivity.
  - exists evs. rewrite E2. split; assumption.
Qed.

End Lifecycle.

(** On the bench the robot starts disabled: the round trip ends with the
    robot disabled again. *)
Lemma round_trip_bench :
  rs_enabled (world (exec (round_trip bench_list_to_pose_msg
                             bench_pose_dict_to_hom bench_hom_to_list
                             bench_projection true
                             [Call_measure_distance Left] true) bench))
  = false.
Proof.
  apply (round_trip_restores_enablement bench_list_to_pose_msg
           bench_pose_dict_to_hom bench_hom_to_list bench_projection
           true true [Call_measure_distance Left] bench).
Defined.

(** ** Inverse kinematics *)

Section KinematicsFacts.

Variable list_to_pose_msg : list Q -> option Pose.

(** What [ik] returns is decided by the world, not by what was logged. *)
Lemma ik_run_world (arm : Arm) (pose : option PoseArg) (s s' : State) :
  world s' = world s ->
  run (ik list_to_pose_msg arm pose) s'
  = run (ik list_to_pose_msg arm pose) s.
Proof.
  intros Hw. unfold run, ik.
  destruct pose as [p|]; [|cbn; now rewrite Hw].
  unfold _stamp_pose.
  destruct p as [p|l]; [|destruct (list_to_pose_msg l) as [p|]];
    (unfold bind, try_except, call_ik_service, gets, log, emit, modify,
       ret, raise; cbn; rewrite ?Hw;
     try match goal with
         | |- context [ik_service ?w ?a ?pq] =>
             destruct (ik_service w a pq) as [| |[] ? ?]
         end; reflexivity).
Qed.

(** The two nested [try] blocks of [ik_either_limb], spelled out. *)
Lemma ik_either_limb_unfold (pose : option PoseArg) (s : State) :
  ik_either_limb list_to_pose_msg pose s
  = match ik list_to_pose_msg Left pose s with
    | (Ok cfg, s1) => (Ok (Left, cfg), s1)
    | (Raise e, s1) =>
        if is_ValueError e then
          match ik list_to_pose_msg Right pose s1 with
          | (Ok cfg, s2) => (Ok (Right, cfg), s2)
          | (Raise e', s2) =>
              if is_ValueError e' then
                (Raise (ValueError (NoValidConfigurationEither pose)),
                 set_trace
                   (fun t =>
                      t ++ [Log WARNING (NoValidConfigurationEither pose)])
                   s2)
              else (Raise e', s2)
          end
        else (Raise e, s1)
    end.
Proof.
  unfold ik_either_limb, try_except, bind.
  destruct (ik list_to_pose_msg Left pose s) as [[cfg|e] s1];
    [reflexivity|].
  destruct (is_ValueError e); [|reflexivity].
  destruct (ik list_to_pose_msg Right pose s1) as [[cfg|e'] s2];
    [reflexivity|].
  now destruct (is_ValueError e').
Qed.

(** C10: with no pose, [ik_either_limb] returns the left arm with its
    current joint angles and leaves the state untouched: nothing is
    logged, no service is waited for or called, and the right arm is not
    looked at. *)
Theorem ik_either_limb_no_pose (s : State) :
  ik_either_limb list_to_pose_msg None s
  = (Ok (Left, limb_joint_angles (world s) Left), s).
Proof. reflexivity. Qed.

(** C5: for a pose that is not [None], the left arm is tried first: when
    it succeeds its answer is the result and nothing further happens;
    when it raises [ValueError] the right arm is tried after it, a
    success of the right arm is returned as [(Right, cfg)], and a second
    [ValueError] is turned into the [ValueError] that names the pose and
    either arm. *)
Theorem ik_either_limb_left_then_right (s : State) (p : PoseArg) :
  (forall cfg,
     run (ik list_to_pose_msg Left (Some p)) s = Ok cfg ->
     ik_either_limb list_to_pose_msg (Some p) s
     = (Ok (Left, cfg), exec (ik list_to_pose_msg Left (Some p)) s)) /\
  (forall m cfg,
     run (ik list_to_pose_msg Left (Some p)) s = Raise (ValueError m) ->
     run (ik list_to_pose_msg Right (Some p)) s = Ok cfg ->
     run (ik_either_limb list_to_pose_msg (Some p)) s = Ok (Right, cfg)) /\
  (forall m m',
     run (ik list_to_pose_msg Left (Some p)) s = Raise (ValueError m) ->
     run (ik list_to_pose_msg Right (Some p)) s = Raise (ValueError m') ->
     run (ik_either_limb list_to_pose_msg (Some p)) s
     = Raise (ValueError (NoValidConfigurationEither (Some p)))) /\
  (exists evs,
     trace (exec (ik_either_limb list_to_pose_msg (Some p)) s)
     = trace (exec (ik list_to_pose_msg Left (Some p)) s) ++ evs).
Proof.
  pose proof (ik_frame list_to_pose_msg Left (Some p) s) as Hl.
  pose proof (ik_run_world Right (Some p) s) as Hindep.
  unfold run, exec in *. rewrite ik_either_limb_unfold.
  destruct (ik list_to_pose_msg Left (Some p) s) as [[cfg1|e1] s1].
  - cbn [fst snd]. repeat split; try discriminate.
    + now intros cfg [= ->].
    + exists []. now rewrite app_nil_r.
  - cbn [fst snd] in *. specialize (Hindep s1 (proj1 Hl)).
    pose proof (ik_frame list_to_pose_msg Right (Some p) s1) as Hr.
    destruct (ik list_to_pose_msg Right (Some p) s1) as [[cfg2|e2] s2];
      cbn [fst snd] in *;
      destruct Hr as (_ & _ & _ & evs & Ht);
      repeat split; try discriminate.
    + intros m cfg [= ->] E. cbn. congruence.
    + intros m m' [= ->] E. congruence.
    + destruct (is_ValueError e1); cbn [snd];
        [eauto | exists []; now rewrite app_nil_r].
    + intros m cfg [= ->] E. congruence.
    + intros m m' [= ->] E. rewrite <- Hindep in E. injection E as ->.
      reflexivity.
    + destruct (is_ValueError e1); cbn [snd];
        [|exists []; now rewrite app_nil_r].
      destruct (is_ValueError e2); cbn; rewrite ?Ht, <- ?app_assoc; eauto.
Qed.

End KinematicsFacts.

(** On the bench the solver rejects the pose for the left arm and accepts
    it for the right arm: the right arm is returned. *)
Lemma ik_either_limb_bench :
  run (ik_either_limb bench_list_to_pose_msg
         (Some (PoseList [0.6; 0.1; -0.1; 1; 0; 0; 0]))) bench
  = Ok (Right, dict_zip ["right_s0"%string; "right_s1"%string] [0.3; 0.4]).
Proof.
  eapply (proj1 (proj2 (ik_either_limb_left_then_right
                          bench_list_to_pose_msg bench
                          (PoseList [0.6; 0.1; -0.1; 1; 0; 0; 0])))).
  - reflexivity.
  - reflexivity.
Defined.

(** ** Position estimate *)

Section EstimateFacts.

Variable pose_dict_to_hom : Pose -> Mat4.
Variable hom_to_list : Mat4 -> list Q.
Variable projection_pixel_to_camera : option Q -> Q * Q -> Q -> list Q.

(** The whole of [estimate_object_position] once the object is set up:
    [rob] is the point the transform chain yields, its z component only
    decides whether the warning is logged. *)
Lemma estimate_object_position_run (s : State) (arm : Arm)
  (center : Q * Q) (zt : Q) (off : Q * Q * Q) (cam_z : Q) (rob : Vec4) :
  z_table (self s) = Some zt ->
  cam_offset (self s) = Some off ->
  hom_to_list (camera_hom pose_dict_to_hom s arm off) !! 2%nat
  = Some cam_z ->
  transform_to_robot (camera_hom pose_dict_to_hom s arm off)
    (projection_pixel_to_camera (meters_per_pixel (self s) arm) center
       (cam_z - zt)) = Some rob ->
  estimate_object_position pose_dict_to_hom hom_to_list
    projection_pixel_to_camera arm center s
  = (Ok [v0 rob; v1 rob; zt],
     if Qgtb (Qabs (Qabs (v2 rob) - Qabs zt)) 1e-3
     then set_trace
            (fun t =>
               t ++ [Log WARNING
                       (ZDeviation (Qabs (Qabs (v2 rob) - Qabs zt)))]) s
     else s).
Proof.
  intros Hzt Hoff Hz Hrob. unfold camera_hom in *.
  unfold estimate_object_position, camera_pose, hom_camera_to_robot,
    hom_gripper_to_robot, list_getitem, bind, gets, ret.
  rewrite Hoff. cbv beta iota. rewrite Hz. cbv beta iota.
  rewrite Hzt. cbv beta iota zeta. rewrite Hoff. cbv beta iota.
  rewrite Hrob. unfold log, emit, modify.
  now destruct (Qgtb _ 1e-3).
Qed.

(** When the two z coordinates lie on the same side of the base frame,
    the quantity the code compares with the tolerance is their distance;
    across the base frame it is not. *)
Lemma magnitude_gap_same_side (a b : Q) :
  (0 <= a /\ 0 <= b) \/ (a <= 0 /\ b <= 0) ->
  Qabs (Qabs a - Qabs b) == Qabs (a - b).
Proof.
  intros [[Ha Hb]|[Ha Hb]].
  - now rewrite (Qabs_pos a), (Qabs_pos b).
  - rewrite (Qabs_neg a), (Qabs_neg b) by assumption.
    rewrite <- (Qabs_opp (a - b)).
    apply Qabs_wd. ring.
Qed.

(** C3: once [z_table] and the camera offset are set and the helpers
    return a pose and a three-element point, the estimate is returned and
    its z component is [z_table] itself, whatever z the transform chain
    produced and whether or not the warning was logged. *)
Theorem estimate_object_position_z (s : State) (arm : Arm)
  (center : Q * Q) (zt : Q) (off : Q * Q * Q) (cam_z : Q) (rob : Vec4) :
  z_table (self s) = Some zt ->
  cam_offset (self s) = Some off ->
  hom_to_list (camera_hom pose_dict_to_hom s arm off) !! 2%nat
  = Some cam_z ->
  transform_to_robot (camera_hom pose_dict_to_hom s arm off)
    (projection_pixel_to_camera (meters_per_pixel (self s) arm) center
       (cam_z - zt)) = Some rob ->
  run (estimate_object_position pose_dict_to_hom hom_to_list
         projection_pixel_to_camera arm center) s
  = Ok [v0 rob; v1 rob; zt].
Proof.
  intros Hzt Hoff Hz Hrob. unfold run.
  now rewrite (estimate_object_position_run s arm center zt off cam_z rob).
Qed.

End EstimateFacts.

(** With the table at -0.15 m the chain yields z = -0.1511, and the
    estimate still carries -0.15. *)
Lemma estimate_object_position_z_bench :
  exists x y,
    run (estimate_object_position bench_pose_dict_to_hom bench_hom_to_list
           bench_projection Left (640, 400)) (bench_calibrated (-0.15))
    = Ok [x; y; -0.15].
Proof.
  do 2 eexists.
  eapply (estimate_object_position_z bench_pose_dict_to_hom
            bench_hom_to_list bench_projection (bench_calibrated (-0.15))
            Left (640, 400) (-0.15) _get_cam_offset).
  - reflexivity.
  - reflexivity.
  - reflexivity.
  - reflexivity.
Defined.

(** C2, at an input where the code and the claim part: the table is
    0.5 mm above the base frame, the transform chain puts the object
    0.6 mm below it; the two z coordinates are 1.1 mm apart, more than
    the tolerance, yet the difference of their absolute values is
    0.1 mm and no warning is logged.  The same 1.1 mm with the table at
    -0.15 m is logged. *)
Theorem estimate_warning_compares_magnitudes :
  exists cam_z rob,
    bench_hom_to_list
      (camera_hom bench_pose_dict_to_hom (bench_calibrated 0.0005) Left
         _get_cam_offset) !! 2%nat = Some cam_z /\
    transform_to_robot
      (camera_hom bench_pose_dict_to_hom (bench_calibrated 0.0005) Left
         _get_cam_offset)
      (bench_projection (Some 0.0025) (640, 400) (cam_z - 0.0005))
    = Some rob /\
    v2 rob == -0.0006 /\
    1e-3 < Qabs (v2 rob - 0.0005) /\
    estimate_object_position bench_pose_dict_to_hom bench_hom_to_list
      bench_projection Left (640, 400) (bench_calibrated 0.0005)
    = (Ok [v0 rob; v1 rob; 0.0005], bench_calibrated 0.0005) /\
    exists d,
      last (trace (exec (estimate_object_position bench_pose_dict_to_hom
                           bench_hom_to_list bench_projection Left
                           (640, 400))
                     (bench_calibrated (-0.15))))
      = Some (Log WARNING (ZDeviation d)) /\
      d == Qabs (v2 rob - 0.0005).
Proof.
  do 2 eexists. split; [reflexivity|]. split; [reflexivity|].
  split; [vm_compute; reflexivity|]. split; [vm_compute; reflexivity|].
  split.
  - rewrite (estimate_object_position_run bench_pose_dict_to_hom
               bench_hom_to_list bench_projection (bench_calibrated 0.0005)
               Left (640, 400) 0.0005 _get_cam_offset
               _ _ eq_refl eq_refl eq_refl eq_refl).
    match goal with
    | |- context [if ?b then _ else _] =>
        replace b with false by (vm_compute; reflexivity)
    end.
    reflexivity.
  - unfold exec.
    rewrite (estimate_object_position_run bench_pose_dict_to_hom
               bench_hom_to_list bench_projection
               (bench_calibrated (-0.15))
               Left (640, 400) (-0.15) _get_cam_offset
               _ _ eq_refl eq_refl eq_refl eq_refl).
    match goal with
    | |- context [if ?b then _ else _] =>
        replace b with true by (vm_compute; reflexivity)
    end.
    cbn [snd set_trace trace]. rewrite last_snoc.
    eexists. split; [reflexivity|]. vm_compute. reflexivity.
Qed.

(** * Further properties of the methods *)

(** ** Gripper selection: which arm comes out *)

(** One pass of the loop either leaves the local variables alone or
    selects the arm it looks at, and it selects an arm only for a size
    strictly inside the range. *)
Lemma select_step_outcome (size : Q) (a : Arm) (gr : Q * Q)
  (loc : Selection) :
  select_step size a gr loc = loc \/
  (sel_arm (select_step size a gr loc) = Some a /\
   fst gr < size /\ size < snd gr).
Proof.
  unfold select_step.
  destruct (Qle_bool (fst gr) size && Qltb size (snd gr)) eqn:Hin;
    [|now left].
  cbv zeta.
  destruct (Qgtb (nearer_boundary gr size) 0.0) eqn:Hpos; [|now left].
  assert (Hs : fst gr < size /\ size < snd gr).
  { reflect_tests. destruct gr as [lo hi]. cbn [fst snd] in *.
    destruct (nearer_boundary_inside lo hi size) as [[E _]|[E ?]]; lra. }
  destruct (Qgtb (nearer_boundary gr size) (sel_dist loc));
    [now right|].
  destruct (Qeq_bool (nearer_boundary gr size) (sel_dist loc));
    [|now left].
  destruct (Qgtb (fst gr) (sel_min_width loc)); [now right | now left].
Qed.

(** Whatever the two passes of the loop select is suitable. *)
Lemma select_steps_suitable (size : Q) (gl gr : Q * Q) (a : Arm) :
  sel_arm (select_step size Right gr (select_step size Left gl select_init))
  = Some a ->
  let range := match a with Left => gl | Right => gr end in
  fst range < size /\ size < snd range.
Proof.
  intros Hsel.
  destruct (select_step_outcome size Right gr
              (select_step size Left gl select_init)) as [Hkeep|[Harm Hin]].
  - rewrite Hkeep in Hsel.
    destruct (select_step_outcome size Left gl select_init)
      as [Hkeep'|[Harm' Hin']].
    + rewrite Hkeep' in Hsel. discriminate.
    + rewrite Harm' in Hsel. injection Hsel as <-. exact Hin'.
  - rewrite Harm in Hsel. injection Hsel as <-. exact Hin.
Qed.

(** X1: an arm returned by [select_gripper_for_object] is suitable: the
    size of the object lies strictly inside the range installed on it. *)
Theorem select_gripper_returns_suitable (s : State) (object_id : string)
  (size : Q) (gl gr : Q * Q) (a : Arm) :
  object_size_meters (settings s) !! object_id = Some size ->
  installed_range (settings s) Left = Some gl ->
  installed_range (settings s) Right = Some gr ->
  run (select_gripper_for_object object_id) s = Ok a ->
  let range := match a with Left => gl | Right => gr end in
  fst range < size /\ size < snd range.
Proof.
  intros Hsize Hl Hr Hrun.
  destruct (select_gripper_for_object_run object_id s size _ _ Hsize Hl Hr)
    as (s' & E & _).
  unfold run in Hrun. rewrite E in Hrun. cbn [fst] in Hrun.
  apply select_steps_suitable.
  destruct (sel_arm _); [congruence | discriminate].
Qed.

Lemma select_gripper_returns_suitable_bench :
  0.071 < 0.080 /\ 0.080 < 0.094.
Proof.
  apply (select_gripper_returns_suitable bench "mug" 0.080
           (0.071, 0.094) (0.052, 0.075) Left); reflexivity.
Defined.

(** X2: [select_gripper_for_object] returns an arm exactly when the size
    lies strictly inside the range of at least one arm; otherwise it
    raises the [ValueError] of a missing gripper. *)
Theorem select_gripper_returns_iff_suitable (s : State)
  (object_id : string) (size : Q) (gl gr : Q * Q) :
  object_size_meters (settings s) !! object_id = Some size ->
  installed_range (settings s) Left = Some gl ->
  installed_range (settings s) Right = Some gr ->
  ((exists a, run (select_gripper_for_object object_id) s = Ok a) <->
   (fst gl < size /\ size < snd gl) \/ (fst gr < size /\ size < snd gr)) /\
  ((forall a, run (select_gripper_for_object object_id) s <> Ok a) ->
   run (select_gripper_for_object object_id) s
   = Raise (ValueError (NoSuitableGripper object_id size
                          (fst gl) (snd gl) (fst gr) (snd gr)))).
Proof.
  intros Hsize Hl Hr.
  destruct (select_gripper_for_object_run object_id s size _ _ Hsize Hl Hr)
    as (s' & E & _).
  split; [split|].
  - intros [a Ha]. unfold run in Ha. rewrite E in Ha. cbn [fst] in Ha.
    pose proof (select_steps_suitable size gl gr a) as Hin.
    destruct (sel_arm _); [|discriminate].
    injection Ha as ->. specialize (Hin eq_refl).
    destruct a; [left | right]; exact Hin.
  - intros Hin. unfold run. rewrite E. cbn [fst].
    destruct (select_step_outcome size Right gr
                (select_step size Left gl select_init))
      as [Hkeep|[Harm _]]; [|rewrite Harm; eauto].
    rewrite Hkeep.
    destruct Hin as [[H1 H2]|[H1 H2]].
    + rewrite select_step_first by assumption. cbn. eauto.
    + destruct (select_step_outcome size Left gl select_init)
        as [Hkeep'|[Harm' _]]; [|rewrite Harm'; eauto].
      rewrite Hkeep' in Hkeep.
      rewrite select_step_first in Hkeep by assumption. discriminate.
  - intros Hnone. unfold run in *. rewrite E in *. cbn [fst] in *.
    destruct (sel_arm _) as [a|]; [|reflexivity].
    now destruct (Hnone a).
Qed.

Lemma select_gripper_returns_iff_suitable_bench :
  (exists a, run (select_gripper_for_object "mug") bench = Ok a) <->
  (0.071 < 0.080 /\ 0.080 < 0.094) \/ (0.052 < 0.080 /\ 0.080 < 0.075).
Proof.
  apply (select_gripper_returns_iff_suitable bench "mug" 0.080
           (0.071, 0.094) (0.052, 0.075)); reflexivity.
Defined.

(** X3: when the size lies strictly inside both ranges, the arm whose
    nearer range boundary is farther from the size is returned. *)
Theorem select_gripper_larger_margin (s : State) (object_id : string)
  (size : Q) (gl gr : Q * Q) (a : Arm) :
  object_size_meters (settings s) !! object_id = Some size ->
  installed_range (settings s) Left = Some gl ->
  installed_range (settings s) Right = Some gr ->
  fst gl < size -> size < snd gl ->
  fst gr < size -> size < snd gr ->
  (let mine := match a with Left => gl | Right => gr end in
   let other := match a with Left => gr | Right => gl end in
   nearer_boundary other size < nearer_boundary mine size) ->
  run (select_gripper_for_object object_id) s = Ok a.
Proof.
  intros Hsize Hl Hr Hl0 Hl1 Hr0 Hr1 Hgt.
  destruct (select_gripper_for_object_run object_id s size _ _ Hsize Hl Hr)
    as (s' & E & _).
  unfold run. rewrite E. cbn [fst].
  rewrite select_step_first by assumption.
  assert (Hpos : 0 < nearer_boundary gr size).
  { destruct gr as [lo hi]. cbn [fst snd] in *.
    destruct (nearer_boundary_inside lo hi size) as [[D _]|[D _]]; lra. }
  unfold select_step. cbn [sel_dist sel_min_width sel_arm].
  destruct (Qle_bool (fst gr) size && Qltb size (snd gr)) eqn:Hin;
    [|reflect_tests; lra].
  cbv zeta.
  destruct (Qgtb (nearer_boundary gr size) 0.0) eqn:Hp;
    [|reflect_tests; lra].
  destruct a; cbv zeta in Hgt.
  - destruct (Qgtb (nearer_boundary gr size) (nearer_boundary gl size))
      eqn:H1; [reflect_tests; lra|].
    destruct (Qeq_bool (nearer_boundary gr size) (nearer_boundary gl size))
      eqn:H2; [reflect_tests; lra | reflexivity].
  - destruct (Qgtb (nearer_boundary gr size) (nearer_boundary gl size))
      eqn:H1; [reflexivity | reflect_tests; lra].
Qed.

(** 74 mm is 1 mm from the upper end of the right range and 3 mm from the
    lower end of the left range of the bench. *)
Lemma select_gripper_larger_margin_bench :
  run (select_gripper_for_object "jar") pantry = Ok Left.
Proof.
  apply (select_gripper_larger_margin pantry "jar" 0.074
           (0.071, 0.094) (0.052, 0.075) Left);
    try reflexivity; vm_compute; reflexivity.
Defined.

(** X4: a key that is missing raises [KeyError]: an object identifier that
    the settings do not list (nothing is logged and nothing else is looked
    at), or a finger slot that the table of ranges does not hold. *)
Theorem select_gripper_missing_key (s : State) (object_id : string) :
  (object_size_meters (settings s) !! object_id = None ->
   select_gripper_for_object object_id s = (Raise KeyError, s)) /\
  (forall size,
     object_size_meters (settings s) !! object_id = Some size ->
     installed_range (settings s) Left = None \/
     installed_range (settings s) Right = None ->
     run (select_gripper_for_object object_id) s = Raise KeyError).
Proof.
  split.
  - intros Hnone. unfold select_gripper_for_object, bind, gets, getitem.
    now rewrite Hnone.
  - intros size Hsize Hmiss.
    unfold run, select_gripper_for_object.
    unfold bind at 1, gets at 1. unfold bind at 1, getitem at 1.
    rewrite Hsize. unfold ret at 1.
    unfold bind at 1, _arms, for_each.
    destruct (installed_range (settings s) Left) as [gl|] eqn:Hl.
    + destruct Hmiss as [Hmiss|Hr]; [discriminate|].
      destruct (select_gripper_body_run size Left select_init s gl Hl)
        as (s1 & E1 & G1).
      unfold bind at 1. rewrite E1.
      unfold bind at 1.
      assert (Hr1 : installed_range (settings s1) Right = None).
      { destruct G1 as (_ & -> & _). exact Hr. }
      unfold select_gripper_body at 1, bind at 1, gets at 1.
      unfold installed_range in Hr1.
      unfold bind at 1, getitem at 1. now rewrite Hr1.
    + unfold bind at 1.
      unfold select_gripper_body at 1, bind at 1, gets at 1.
      unfold installed_range in Hl.
      unfold bind at 1, getitem at 1. now rewrite Hl.
Qed.

(** Nothing on the bench is called a vase. *)
Lemma select_gripper_missing_key_bench :
  select_gripper_for_object "vase" bench = (Raise KeyError, bench).
Proof.
  apply (proj1 (select_gripper_missing_key bench "vase")). reflexivity.
Defined.

(** ** Sampling: intervals, missing keys, fixed orientation *)

Lemma sample_coordinate_run (lim : gmap string Q) (k_max k_min : string)
  (hi lo : Q) (s : State) :
  lim !! k_max = Some hi -> lim !! k_min = Some lo ->
  sample_coordinate lim k_max k_min s
  = (Ok ((hi - lo) * random_stream (world s) (random_pos (world s)) + lo),
     set_world (with_random_pos (S (random_pos (world s)))) s).
Proof.
  intros Hhi Hlo. unfold sample_coordinate, bind, getitem.
  rewrite Hhi. unfold ret at 1. rewrite Hlo. unfold ret at 1.
  unfold random_sample, bind, gets, modify. reflexivity.
Qed.

Lemma scaled_draw_within (hi lo r : Q) :
  lo <= hi -> 0 <= r -> r < 1 ->
  lo <= (hi - lo) * r + lo /\ (hi - lo) * r + lo <= hi.
Proof.
  intros Hle H0 H1.
  assert (Ha : 0 <= (hi - lo) * r) by (apply Qmult_le_0_compat; lra).
  assert (Hb : 0 <= (hi - lo) * (1 - r)) by (apply Qmult_le_0_compat; lra).
  split; lra.
Qed.

(** X5: when the dictionary gives every axis a lower limit that does not
    exceed its upper limit and the random source delivers numbers of
    [0, 1), [sample_pose] returns six coordinates, each inside the closed
    interval of its axis, and has used six draws. *)
Theorem sample_pose_within_limits (lim : gmap string Q) (s : State) :
  Forall (fun k => exists hi lo,
            lim !! fst k = Some hi /\ lim !! snd k = Some lo /\ lo <= hi)
    axis_keys ->
  Forall (fun r => 0 <= r /\ r < 1) (next_draws s 6) ->
  exists pose,
    run (sample_pose lim) s = Ok pose /\
    Forall2 (within_axis lim) axis_keys pose /\
    random_pos (world (exec (sample_pose lim) s))
    = (random_pos (world s) + 6)%nat.
Proof.
  unfold axis_keys, next_draws. cbn [seq map].
  intros Hlim Hdraws.
  repeat match goal with
         | H : Forall _ (_ :: _) |- _ => apply Forall_cons in H; destruct H
         | H : exists _, _ |- _ => destruct H
         | H : _ /\ _ |- _ => destruct H
         end.
  cbn [fst snd] in *.
  unfold run, exec, sample_pose.
  repeat (erewrite bind_ok;
          [|apply sample_coordinate_run; eassumption]).
  unfold ret. cbn [fst snd set_world world with_random_pos random_pos
                   random_stream].
  eexists. split; [reflexivity|]. split.
  - set (p := random_pos (world s)) in *.
    replace (p + 0)%nat with p in * by lia.
    replace (p + 1)%nat with (S p) in * by lia.
    replace (p + 2)%nat with (S (S p)) in * by lia.
    replace (p + 3)%nat with (S (S (S p))) in * by lia.
    replace (p + 4)%nat with (S (S (S (S p)))) in * by lia.
    replace (p + 5)%nat with (S (S (S (S (S p))))) in * by lia.
    repeat constructor; unfold within_axis; cbn [fst snd];
      do 2 eexists; (split; [eassumption|]); (split; [eassumption|]);
      apply scaled_draw_within; assumption.
  - lia.
Qed.

(** On the bench every interval is in order and every draw is 0.5. *)
Lemma sample_pose_within_limits_bench :
  exists pose,
    run (sample_pose bench_limits) bench = Ok pose /\
    Forall2 (within_axis bench_limits) axis_keys pose /\
    random_pos (world (exec (sample_pose bench_limits) bench)) = 6%nat.
Proof.
  apply (sample_pose_within_limits bench_limits bench).
  - unfold axis_keys.
    repeat (apply List.Forall_cons;
            [do 2 eexists; split; [reflexivity|];
             split; [reflexivity | cbn; lra] |]).
    apply List.Forall_nil.
  - unfold next_draws. cbn.
    repeat (apply List.Forall_cons; [lra|]).
    apply List.Forall_nil.
Defined.

(** X6: when one of the twelve keys is missing from the dictionary,
    [sample_pose] raises [KeyError]. *)
Theorem sample_pose_missing_key (lim : gmap string Q) (s : State)
  (k : string) :
  In k (map fst axis_keys ++ map snd axis_keys) ->
  lim !! k = None ->
  run (sample_pose lim) s = Raise KeyError.
Proof.
  intros Hin Hnone. unfold run, sample_pose, sample_coordinate.
  unfold bind, getitem, random_sample, gets, modify, ret, raise.
  repeat match goal with
         | |- context [lim !! ?key] =>
             destruct (lim !! key) eqn:?; cbn [fst]; [|reflexivity]
         end.
  exfalso. cbn in Hin.
  repeat (destruct Hin as [<-|Hin]; [congruence|]).
  exact Hin.
Qed.

(** Limits that lack the lower end of the z interval. *)
Lemma sample_pose_missing_key_bench :
  run (sample_pose (delete "z_min"%string bench_limits)) bench
  = Raise KeyError.
Proof.
  apply (sample_pose_missing_key _ bench "z_min"%string).
  - cbn. tauto.
  - reflexivity.
Defined.

(** What [sample_task_space_pose] hands to [sample_pose]. *)
Lemma sample_task_space_pose_unfold (clip_z : bool) (s : State) :
  let borders :=
    <["yaw_min"%string := np_pi]>
      (<["yaw_max"%string := np_pi]>
         (<["pitch_min"%string := 0.0]>
            (<["pitch_max"%string := 0.0]>
               (<["roll_min"%string := np_pi]>
                  (<["roll_max"%string := np_pi]>
                     (if clip_z
                      then <["z_max"%string := 0.0]>
                             (task_space_limits_m (settings s))
                      else task_space_limits_m (settings s))))))) in
  sample_task_space_pose clip_z s
  = sample_pose borders
      (set_settings (with_task_space_limits_m borders) s).
Proof.
  unfold sample_task_space_pose, borders_setitem, bind, modify, gets, ret.
  now destruct clip_z.
Qed.

(** X7: [sample_task_space_pose] holds the orientation fixed.  As soon as
    the settings give the x, y and z intervals, it returns a pose whose
    roll, pitch and yaw are [np.pi], [0.0] and [np.pi], whatever the
    random source delivers and whatever orientation limits the settings
    held. *)
Theorem sample_task_space_pose_orientation (clip_z : bool) (s : State) :
  Forall (fun k => is_Some (task_space_limits_m (settings s) !! k))
    ["x_max"%string; "x_min"%string; "y_max"%string; "y_min"%string;
     "z_max"%string; "z_min"%string] ->
  exists x y z roll pitch yaw,
    run (sample_task_space_pose clip_z) s = Ok [x; y; z; roll; pitch; yaw] /\
    roll == np_pi /\ pitch == 0 /\ yaw == np_pi.
Proof.
  intros Hkeys.
  repeat match goal with
         | H : Forall _ (_ :: _) |- _ => apply Forall_cons in H; destruct H
         | H : is_Some _ |- _ => destruct H
         end.
  unfold run. rewrite sample_task_space_pose_unfold. cbv zeta.
  unfold sample_pose.
  destruct clip_z;
    repeat (erewrite bind_ok;
            [|apply sample_coordinate_run;
              simplify_map_eq; try reflexivity; eassumption]);
    unfold ret; cbn [fst];
    (do 6 eexists; split; [reflexivity|]);
    repeat split; ring.
Qed.

Lemma sample_task_space_pose_orientation_bench :
  exists x y z roll pitch yaw,
    run (sample_task_space_pose false) bench
    = Ok [x; y; z; roll; pitch; yaw] /\
    roll == np_pi /\ pitch == 0 /\ yaw == np_pi.
Proof.
  apply (sample_task_space_pose_orientation false bench).
  repeat (apply List.Forall_cons; [eexists; reflexivity|]).
  apply List.Forall_nil.
Defined.

(** X8: with [clip_z] set, the z coordinate is drawn between the lower z
    limit of the settings and zero, when that limit is not above zero and
    the draw lies in [0, 1]; the upper z limit of the settings plays no
    part and need not even be there. *)
Theorem sample_task_space_pose_clipped_z (s : State) (z_min : Q) :
  Forall (fun k => is_Some (task_space_limits_m (settings s) !! k))
    ["x_max"%string; "x_min"%string; "y_max"%string; "y_min"%string] ->
  task_space_limits_m (settings s) !! "z_min"%string = Some z_min ->
  z_min <= 0 ->
  0 <= random_stream (world s) (random_pos (world s) + 2)%nat ->
  random_stream (world s) (random_pos (world s) + 2)%nat <= 1 ->
  exists pose z,
    run (sample_task_space_pose true) s = Ok pose /\
    pose !! 2%nat = Some z /\ z_min <= z /\ z <= 0.
Proof.
  intros Hkeys Hz Hneg Hr0 Hr1.
  repeat match goal with
         | H : Forall _ (_ :: _) |- _ => apply Forall_cons in H; destruct H
         | H : is_Some _ |- _ => destruct H
         end.
  unfold run. rewrite sample_task_space_pose_unfold. cbv zeta.
  unfold sample_pose.
  repeat (erewrite bind_ok;
          [|apply sample_coordinate_run;
            simplify_map_eq; try reflexivity; eassumption]).
  unfold ret. cbn [fst].
  do 2 eexists. split; [reflexivity|]. split; [reflexivity|].
  cbn [set_world set_settings world with_random_pos random_pos
         random_stream].
  replace (random_pos (world s) + 2)%nat
    with (S (S (random_pos (world s)))) in * by lia.
  set (r := random_stream (world s) (S (S (random_pos (world s))))) in *.
  assert (Ha : 0 <= (0 - z_min) * r) by (apply Qmult_le_0_compat; lra).
  assert (Hb : 0 <= (0 - z_min) * (1 - r))
    by (apply Qmult_le_0_compat; lra).
  split; lra.
Qed.

Lemma sample_task_space_pose_clipped_z_bench :
  exists pose z,
    run (sample_task_space_pose true) bench = Ok pose /\
    pose !! 2%nat = Some z /\ -0.2 <= z /\ z <= 0.
Proof.
  apply (sample_task_space_pose_clipped_z bench (-0.2)).
  - repeat (apply List.Forall_cons; [eexists; reflexivity|]).
    apply List.Forall_nil.
  - reflexivity.
  - lra.
  - cbn. lra.
  - cbn. lra.
Defined.

(** ** Inverse kinematics: failures and the returned configuration *)

Lemma foldl_insert_notin (l : list (string * Q)) (d : gmap string Q)
  (k : string) :
  k ∉ l.*1 ->
  foldl (fun d p => <[fst p := snd p]> d) d l !! k = d !! k.
Proof.
  revert d. induction l as [|[k' v'] l IH]; intros d Hk; [reflexivity|].
  cbn in *. apply not_elem_of_cons in Hk as [Hne Hk].
  rewrite IH by exact Hk. now rewrite lookup_insert_ne.
Qed.

Lemma foldl_insert_in (l : list (string * Q)) (d : gmap string Q)
  (k : string) (v : Q) :
  NoDup l.*1 -> (k, v) ∈ l ->
  foldl (fun d p => <[fst p := snd p]> d) d l !! k = Some v.
Proof.
  revert d. induction l as [|[k' v'] l IH]; intros d Hnd Hin.
  - now apply elem_of_nil in Hin.
  - cbn in *. apply NoDup_cons in Hnd as [Hk' Hnd].
    apply elem_of_cons in Hin as [[= -> ->]|Hin].
    + rewrite foldl_insert_notin by exact Hk'. apply lookup_insert_eq.
    + now apply IH.
Qed.

Section KinematicsMore.

Variable list_to_pose_msg : list Q -> option Pose.
Variable pose_dict_to_hom : Pose -> Mat4.
Variable hom_to_list : Mat4 -> list Q.
Variable projection_pixel_to_camera : option Q -> Q * Q -> Q -> list Q.

Lemma ik_stamp (p : PoseArg) (m : Pose) (s : State) :
  pose_of list_to_pose_msg p = Some m ->
  _stamp_pose list_to_pose_msg p "base" s = (Ok (stamped m), s).
Proof.
  unfold _stamp_pose, pose_of, stamped, bind, ret.
  destruct p as [m'|l]; [now intros [= ->]|].
  intros H. now rewrite H.
Qed.

Lemma ik_timeout (arm : Arm) (p : PoseArg) (m : Pose) (s : State) :
  pose_of list_to_pose_msg p = Some m ->
  ik_service (world s) arm (stamped m) = ServiceTimeout ->
  ik list_to_pose_msg arm (Some p) s
  = (Raise ROSException,
     set_trace (fun t => t ++ [wait_for_service arm;
                               Log ERROR (ServiceRequestFailed true)]) s).
Proof.
  intros Hp Hsrv. unfold ik.
  rewrite (bind_ok _ _ _ _ _ (ik_stamp p m s Hp)).
  unfold call_ik_service, try_except, bind, gets, emit, log, modify, raise.
  cbn [set_trace world]. rewrite Hsrv. cbn.
  unfold set_trace. cbn [world settings self trace].
  now rewrite <- !app_assoc.
Qed.

Lemma ik_failure (arm : Arm) (p : PoseArg) (m : Pose) (s : State) :
  pose_of list_to_pose_msg p = Some m ->
  ik_service (world s) arm (stamped m) = ServiceFailure ->
  ik list_to_pose_msg arm (Some p) s
  = (Raise ServiceException,
     set_trace (fun t => t ++ [wait_for_service arm;
                               ik_request arm (stamped m);
                               Log ERROR (ServiceRequestFailed false)]) s).
Proof.
  intros Hp Hsrv. unfold ik.
  rewrite (bind_ok _ _ _ _ _ (ik_stamp p m s Hp)).
  unfold call_ik_service, try_except, bind, gets, emit, log, modify, raise.
  cbn [set_trace world]. rewrite Hsrv. cbn.
  unfold set_trace. cbn [world settings self trace].
  now rewrite <- !app_assoc.
Qed.

(** X9: when the solver of an arm cannot be used, [ik] logs the error and
    passes the exception on: [ROSException] after waiting in vain, with no
    request sent, and [ServiceException] when the request itself fails.
    Nothing but the trace changes. *)
Theorem ik_service_errors (arm : Arm) (p : PoseArg) (m : Pose)
  (s : State) :
  pose_of list_to_pose_msg p = Some m ->
  (ik_service (world s) arm (stamped m) = ServiceTimeout ->
   ik list_to_pose_msg arm (Some p) s
   = (Raise ROSException,
      set_trace (fun t => t ++ [wait_for_service arm;
                                Log ERROR (ServiceRequestFailed true)]) s))
  /\
  (ik_service (world s) arm (stamped m) = ServiceFailure ->
   ik list_to_pose_msg arm (Some p) s
   = (Raise ServiceException,
      set_trace (fun t => t ++ [wait_for_service arm;
                                ik_request arm (stamped m);
                                Log ERROR (ServiceRequestFailed false)]) s)).
Proof.
  intros Hp. split; intros Hsrv.
  - exact (ik_timeout arm p m s Hp Hsrv).
  - exact (ik_failure arm p m s Hp Hsrv).
Qed.

(** X10: [ik_either_limb] falls back to the right arm on [ValueError]
    only.  Any other exception of the left arm leaves the method as it
    is, in the state the left attempt left behind.  So when waiting for
    the solver of the left arm times out ([ROSException]) or its request
    fails ([ServiceException]), the right arm is neither waited for nor
    asked. *)
Theorem ik_either_limb_no_fallback_on_service_error (s : State) :
  (forall pose e,
     run (ik list_to_pose_msg Left pose) s = Raise e ->
     is_ValueError e = false ->
     ik_either_limb list_to_pose_msg pose s
     = (Raise e, exec (ik list_to_pose_msg Left pose) s)) /\
  (forall p m,
     pose_of list_to_pose_msg p = Some m ->
     ik_service (world s) Left (stamped m) = ServiceTimeout ->
     ik_either_limb list_to_pose_msg (Some p) s
     = (Raise ROSException,
        set_trace (fun t => t ++ [wait_for_service Left;
                                  Log ERROR (ServiceRequestFailed true)])
          s)) /\
  (forall p m,
     pose_of list_to_pose_msg p = Some m ->
     ik_service (world s) Left (stamped m) = ServiceFailure ->
     ik_either_limb list_to_pose_msg (Some p) s
     = (Raise ServiceException,
        set_trace (fun t => t ++ [wait_for_service Left;
                                  ik_request Left (stamped m);
                                  Log ERROR (ServiceRequestFailed false)])
          s)).
Proof.
  split; [|split].
  - intros pose e Hrun Hsel. rewrite ik_either_limb_unfold.
    unfold run, exec in *.
    destruct (ik list_to_pose_msg Left pose s) as [[cfg|e'] s1];
      cbn [fst snd] in *; [discriminate|].
    injection Hrun as ->. now rewrite Hsel.
  - intros p m Hp Hsrv. rewrite ik_either_limb_unfold.
    now rewrite (ik_timeout Left p m s Hp Hsrv).
  - intros p m Hp Hsrv. rewrite ik_either_limb_unfold.
    now rewrite (ik_failure Left p m s Hp Hsrv).
Qed.

(** X11: a list that [list_to_pose_msg] rejects never reaches a solver:
    [ik_either_limb] logs the format error once for each arm and then
    raises the [ValueError] that speaks of no valid configuration with
    either arm. *)
Theorem ik_either_limb_malformed_pose (l : list Q) (s : State) :
  list_to_pose_msg l = None ->
  ik_either_limb list_to_pose_msg (Some (PoseList l)) s
  = (Raise (ValueError (NoValidConfigurationEither (Some (PoseList l)))),
     set_trace
       (fun t => t ++ [Log ERROR (InvalidPoseFormat l);
                       Log ERROR (InvalidPoseFormat l);
                       Log WARNING
                         (NoValidConfigurationEither (Some (PoseList l)))])
       s).
Proof.
  intros Hl. rewrite ik_either_limb_unfold.
  unfold ik, _stamp_pose, bind, log, emit, modify, raise.
  rewrite Hl. cbn. unfold set_trace. cbn [world settings self trace].
  now rewrite <- !app_assoc.
Qed.

(** X12: when the solver answers with a valid solution, [ik] returns the
    dictionary of the answer.  With distinct joint names, as many
    positions as names, every joint is mapped to the position at its
    index, and no other key is present. *)
Theorem ik_valid_configuration (arm : Arm) (p : PoseArg) (m : Pose)
  (s : State) (names : list string) (positions : list Q) :
  pose_of list_to_pose_msg p = Some m ->
  ik_service (world s) arm (stamped m) = IKResponse true names positions ->
  NoDup names ->
  length names = length positions ->
  exists cfg,
    run (ik list_to_pose_msg arm (Some p)) s = Ok cfg /\
    (forall i name x,
       names !! i = Some name -> positions !! i = Some x ->
       cfg !! name = Some x) /\
    (forall name, name ∉ names -> cfg !! name = None).
Proof.
  intros Hp Hsrv Hnd Hlen.
  exists (dict_zip names positions). split; [|split].
  - unfold run, ik.
    rewrite (bind_ok _ _ _ _ _ (ik_stamp p m s Hp)).
    unfold call_ik_service, try_except, bind, gets, emit, log, modify,
      ret.
    cbn [set_trace world]. now rewrite Hsrv.
  - intros i name x Hn Hx. unfold dict_zip.
    apply foldl_insert_in.
    + rewrite fst_zip by lia. exact Hnd.
    + apply list_elem_of_lookup. exists i.
      apply lookup_zip_with_Some. eauto.
  - intros name Hnot. unfold dict_zip.
    rewrite foldl_insert_notin; [apply lookup_empty|].
    rewrite fst_zip by lia. exact Hnot.
Qed.

(** X13: the methods that ask and compute do nothing else: [ik],
    [ik_either_limb], [select_gripper_for_object],
    [estimate_object_position] and [measure_distance] leave the robot's
    state, the settings and the attributes of the object as they were,
    returning or raising; at most, events are recorded. *)
Theorem queries_only_record_events (s : State) :
  (forall arm pose,
     only_trace_grew s (exec (ik list_to_pose_msg arm pose) s)) /\
  (forall pose,
     only_trace_grew s (exec (ik_either_limb list_to_pose_msg pose) s)) /\
  (forall object_id,
     only_trace_grew s (exec (select_gripper_for_object object_id) s)) /\
  (forall arm center,
     only_trace_grew s
       (exec (estimate_object_position pose_dict_to_hom hom_to_list
                projection_pixel_to_camera arm center) s)) /\
  (forall arm, exec (measure_distance arm) s = s).
Proof.
  split; [intros; apply ik_frame|].
  split; [intros; apply ik_either_limb_frame|].
  split; [intros; apply select_gripper_for_object_frame|].
  split; [intros; apply estimate_object_position_frame|].
  intros arm. unfold exec, measure_distance, bind, gets.
  now destruct (_ <? _)%Z.
Qed.

End KinematicsMore.

(** With the solvers out of order, the left arm times out and the right
    arm fails. *)
Lemma ik_service_errors_outage :
  run (ik bench_list_to_pose_msg Left (Some (PoseMsg bench_pose))) outage
  = Raise ROSException.
Proof.
  unfold run.
  rewrite (proj1 (ik_service_errors bench_list_to_pose_msg Left
                    (PoseMsg bench_pose) bench_pose outage eq_refl)).
  - reflexivity.
  - reflexivity.
Defined.

Lemma ik_either_limb_no_fallback_outage :
  run (ik_either_limb bench_list_to_pose_msg (Some (PoseMsg bench_pose)))
    outage
  = Raise ROSException /\
  run (ik_either_limb bench_list_to_pose_msg (Some (PoseMsg bench_pose)))
    failing
  = Raise ServiceException.
Proof.
  split; unfold run.
  - rewrite (proj1 (proj2 (ik_either_limb_no_fallback_on_service_error
                             bench_list_to_pose_msg outage))
               (PoseMsg bench_pose) bench_pose eq_refl eq_refl).
    reflexivity.
  - rewrite (proj2 (proj2 (ik_either_limb_no_fallback_on_service_error
                             bench_list_to_pose_msg failing))
               (PoseMsg bench_pose) bench_pose eq_refl eq_refl).
    reflexivity.
Defined.

(** A list of three numbers is not a pose. *)
Lemma ik_either_limb_malformed_pose_bench :
  run (ik_either_limb bench_list_to_pose_msg (Some (PoseList [1; 2; 3])))
    bench
  = Raise (ValueError
             (NoValidConfigurationEither (Some (PoseList [1; 2; 3])))).
Proof.
  unfold run.
  rewrite (ik_either_limb_malformed_pose bench_list_to_pose_msg
             [1; 2; 3] bench eq_refl).
  reflexivity.
Defined.

(** The answer of the bench solver for the right arm. *)
Lemma ik_valid_configuration_bench :
  exists cfg,
    run (ik bench_list_to_pose_msg Right (Some (PoseMsg bench_pose))) bench
    = Ok cfg /\
    cfg !! "right_s1"%string = Some 0.4.
Proof.
  destruct (ik_valid_configuration bench_list_to_pose_msg Right
              (PoseMsg bench_pose) bench_pose bench
              ["right_s0"%string; "right_s1"%string] [0.3; 0.4]
              eq_refl eq_refl) as (cfg & Hrun & Hget & _).
  - apply NoDup_cons. split; [|apply NoDup_singleton].
    intros H. apply list_elem_of_singleton in H. discriminate.
  - reflexivity.
  - exists cfg. split; [exact Hrun|].
    apply (Hget 1%nat); reflexivity.
Defined.

(** ** Set-up and shut-down out of step *)



(** X15: a second [set_up] overwrites the recorded state with that of a
    robot the first one has enabled: after [set_up], [set_up],
    [clean_up] the robot is enabled, also when it was disabled at the
    start, and [disable] has not been called. *)
Theorem set_up_twice_forgets_initial_state (g1 g2 g3 : bool) (s : State) :
  run (set_up g1 ;;; set_up g2 ;;; clean_up g3) s = Ok tt /\
  rs_enabled (world (exec (set_up g1 ;;; set_up g2 ;;; clean_up g3) s))
  = true /\
  exists evs,
    trace (exec (set_up g1 ;;; set_up g2 ;;; clean_up g3) s)
    = trace s ++ evs /\
    ~ In RobotEnable_disable evs.
Proof.
  destruct (set_up_run g1 s) as (s1 & E1 & Hen1 & Hrs1 & Hinit1).
  destruct (set_up_run g2 s1) as (s2 & E2 & Hen2 & Hrs2 & Hinit2).
  rewrite Hen1 in Hinit2.
  destruct (clean_up_run g3 s2 true Hrs2 Hinit2)
    as (s3 & evs & E3 & Hfin & Htr & Hdis).
  unfold run, exec.
  rewrite !(bind_ok _ _ _ _ _ E1), !(bind_ok _ _ _ _ _ E2), E3.
  cbn [fst snd].
  split; [reflexivity|]. split; [now rewrite Hfin, Hen2|].
  pose proof (f_equal snd E1) as T1. pose proof (f_equal snd E2) as T2.
  cbn [snd] in T1, T2.
  assert (H1 : exists e1, trace s1 = trace s ++ e1
                          /\ ~ In RobotEnable_disable e1).
  { rewrite <- T1. unfold set_up, _arms, for_each, log, emit, modify, bind,
      gets, ret, rs_enable.
    destruct g1; cbn; rewrite <- ?app_assoc; eexists;
      (split; [reflexivity|]); cbn; intuition congruence. }
  assert (H2 : exists e2, trace s2 = trace s1 ++ e2
                          /\ ~ In RobotEnable_disable e2).
  { rewrite <- T2. unfold set_up, _arms, for_each, log, emit, modify, bind,
      gets, ret, rs_enable.
    destruct g2; cbn; rewrite <- ?app_assoc; eexists;
      (split; [reflexivity|]); cbn; intuition congruence. }
  destruct H1 as (e1 & Ht1 & Hn1), H2 as (e2 & Ht2 & Hn2).
  exists (e1 ++ e2 ++ evs). split.
  - rewrite Htr, Ht2, Ht1. now rewrite <- !app_assoc.
  - rewrite !in_app_iff. intros [H|[H|H]]; [tauto | tauto |].
    apply Hdis in H. discriminate.
Qed.

(** ** Frames *)

(** [np.dot] of a product of matrices and a vector is the product
    applied factor by factor. *)
Lemma mat_vec_mat_mul (a b : Mat4) (x : Vec4) :
  vec_eq (mat_vec (mat_mul a b) x) (mat_vec a (mat_vec b x)).
Proof.
  unfold vec_eq, mat_vec, mat_mul, dot4, col. cbn.
  repeat split; ring.
Qed.

Section FramesMore.

Variable pose_dict_to_hom : Pose -> Mat4.
Variable hom_to_list : Mat4 -> list Q.
Variable projection_pixel_to_camera : option Q -> Q * Q -> Q -> list Q.

(** X16: once the camera offset is set, [hom_camera_to_robot] returns,
    without touching the state, a matrix that takes a camera-frame vector
    to the gripper frame first (a quarter turn about the normal axis and
    the offset) and to the robot frame next.  In particular the camera
    sits where the gripper frame puts the offset, and looks along the
    gripper's own z axis. *)
Theorem hom_camera_to_robot_composes (s : State) (arm : Arm)
  (dx dy dz : Q) :
  cam_offset (self s) = Some (dx, dy, dz) ->
  let G := pose_dict_to_hom (limb_endpoint_pose (world s) arm) in
  exists C,
    hom_camera_to_robot pose_dict_to_hom arm s = (Ok C, s) /\
    (forall x y z w,
       vec_eq (mat_vec C (vec4 x y z w))
         (mat_vec G (vec4 (y + dx * w) (- x + dy * w) (z + dz * w) w))) /\
    vec_eq (mat_vec C (vec4 0 0 0 1)) (mat_vec G (vec4 dx dy dz 1)) /\
    vec_eq (mat_vec C (vec4 0 0 1 0)) (mat_vec G (vec4 0 0 1 0)).
Proof.
  intros Hoff G. eexists. split.
  - unfold hom_camera_to_robot, hom_gripper_to_robot, bind, gets, ret.
    rewrite Hoff. reflexivity.
  - fold G.
    repeat split; unfold mat_vec, mat_mul, dot4, col, hom_cam_in_grip, vec4;
      cbn; ring.
Qed.

(** X17: [estimate_object_position] needs a table height.  After
    [set_up] has assigned the camera offset, and as long as [z_table] is
    still [None], the call raises [TypeError] on the subtraction
    [camera_pose[2] - None]; it logs nothing and changes nothing. *)
Theorem estimate_object_position_uncalibrated (s : State) (arm : Arm)
  (center : Q * Q) (off : Q * Q * Q) (cam_z : Q) :
  cam_offset (self s) = Some off ->
  hom_to_list (camera_hom pose_dict_to_hom s arm off) !! 2%nat
  = Some cam_z ->
  z_table (self s) = None ->
  estimate_object_position pose_dict_to_hom hom_to_list
    projection_pixel_to_camera arm center s = (Raise TypeError, s).
Proof.
  intros Hoff Hz Hzt. unfold camera_hom in Hz.
  unfold estimate_object_position, camera_pose, hom_camera_to_robot,
    hom_gripper_to_robot, list_getitem, bind, gets, ret, raise.
  rewrite Hoff. cbv beta iota. rewrite Hz. cbv beta iota.
  now rewrite Hzt.
Qed.

(** X18: the method works for a gripper that points straight down, as its
    docstring says.  If the third row of the gripper matrix is
    [(0, 0, -1, gz)] and the fourth [(0, 0, 0, 1)], the pose list carries
    the camera's height at index 2, and the camera projects the pixel to
    a point at the distance it was given, then the transform chain lands
    on the table height itself and the call returns without a warning. *)
Theorem estimate_object_position_perpendicular (s : State) (arm : Arm)
  (center : Q * Q) (zt gz cam_z px py pz : Q) (off : Q * Q * Q) :
  z_table (self s) = Some zt ->
  cam_offset (self s) = Some off ->
  let G := pose_dict_to_hom (limb_endpoint_pose (world s) arm) in
  let C := camera_hom pose_dict_to_hom s arm off in
  vec_eq (row2 G) (vec4 0 0 (-1) gz) ->
  vec_eq (row3 G) (vec4 0 0 0 1) ->
  hom_to_list C !! 2%nat = Some cam_z ->
  cam_z == v3 (row2 C) ->
  projection_pixel_to_camera (meters_per_pixel (self s) arm) center
    (cam_z - zt) = [px; py; pz] ->
  pz == cam_z - zt ->
  exists x y,
    estimate_object_position pose_dict_to_hom hom_to_list
      projection_pixel_to_camera arm center s
    = (Ok [x; y; zt], s).
Proof.
  intros Hzt Hoff G C (H20 & H21 & H22 & H23) (H30 & H31 & H32 & H33)
    Hpose Hcz Hproj Hpz.
  cbn [vec4 v0 v1 v2 v3] in *.
  set (rob := vec_div (mat_vec C (vec4 px py pz 1))
                (v3 (mat_vec C (vec4 px py pz 1)))).
  exists (v0 rob), (v1 rob).
  rewrite (estimate_object_position_run pose_dict_to_hom hom_to_list
             projection_pixel_to_camera s arm center zt off cam_z
             rob Hzt Hoff Hpose);
    [|fold C; rewrite Hproj; reflexivity].
  match goal with
  | |- context [Qgtb ?d 1e-3] =>
      assert (Hd : Qgtb d 1e-3 = false)
  end.
  { apply Qgtb_false.
    match goal with
    | |- Qabs (Qabs ?z - Qabs zt) <= _ => assert (Hz : z == zt)
    end.
    { destruct off as [[dx dy] dz].
      unfold rob, C, camera_hom, hom_cam_in_grip, mat_mul, mat_vec, dot4,
        col, vec_div, vec4 in *.
      fold G in Hcz |- *. cbn [v0 v1 v2 v3 row0 row1 row2 row3] in *.
      rewrite Hpz, Hcz.
      rewrite H20, H21, H22, H23, H30, H31, H32, H33.
      field. }
    rewrite Hz.
    assert (E : Qabs zt - Qabs zt == 0) by ring.
    rewrite E. vm_compute. discriminate. }
  rewrite Hd. reflexivity.
Qed.

End FramesMore.

(** On the bench after [set_up], the left camera sits where the gripper
    frame puts the offset. *)
Lemma hom_camera_to_robot_composes_bench :
  exists C,
    run (hom_camera_to_robot bench_pose_dict_to_hom Left)
      (bench_calibrated (-0.15)) = Ok C /\
    vec_eq (mat_vec C (vec4 0 0 0 1))
      (mat_vec (bench_pose_dict_to_hom bench_endpoint)
         (vec4 0.03828 0.012 (-0.142345) 1)).
Proof.
  destruct (hom_camera_to_robot_composes bench_pose_dict_to_hom
              (bench_calibrated (-0.15)) Left 0.03828 0.012 (-0.142345)
              eq_refl) as (C & Hrun & _ & Horigin & _).
  exists C. split; [|exact Horigin].
  unfold run. now rewrite Hrun.
Defined.

(** The bench after [set_up], before the table height is measured. *)
Lemma estimate_object_position_uncalibrated_bench :
  cam_offset (self (exec (set_up true) bench))
  = Some (0.03828, 0.012, -0.142345) /\
  z_table (self (exec (set_up true) bench)) = None /\
  estimate_object_position bench_pose_dict_to_hom bench_hom_to_list
    bench_projection Left (640, 400) (exec (set_up true) bench)
  = (Raise TypeError, exec (set_up true) bench).
Proof.
  split; [reflexivity|]. split; [reflexivity|].
  eapply (estimate_object_position_uncalibrated
            bench_pose_dict_to_hom bench_hom_to_list bench_projection
            (exec (set_up true) bench) Left (640, 400)
            (0.03828, 0.012, -0.142345));
    reflexivity.
Defined.

(** The bench gripper points straight down; with a camera that projects
    to the distance it is given, the estimate comes without a warning. *)
Lemma estimate_object_position_perpendicular_bench :
  exists x y,
    estimate_object_position bench_pose_dict_to_hom bench_hom_to_list
      ideal_projection Left (640, 400) (bench_calibrated (-0.15))
    = (Ok [x; y; -0.15], bench_calibrated (-0.15)).
Proof.
  eapply (estimate_object_position_perpendicular bench_pose_dict_to_hom
            bench_hom_to_list ideal_projection (bench_calibrated (-0.15))
            Left (640, 400) (-0.15) 0.158155 _ 0.01 0.02 _
            _get_cam_offset).
  - reflexivity.
  - reflexivity.
  - repeat split; reflexivity.
  - repeat split; reflexivity.
  - reflexivity.
  - vm_compute. reflexivity.
  - reflexivity.
  - reflexivity.
Defined.

(** ** Moving the limbs *)

Lemma limb_named_arm_name (a : Arm) : limb_named (arm_name a) = Some a.
Proof. now destruct a. Qed.

Lemma configuration_of_singleton (a : Arm) (k : string) (v : Q) :
  before_underscore k = arm_name a ->
  configuration_of a {[ k := v ]}.
Proof.
  intros Hk. split.
  - intros H. apply (f_equal (fun q : gmap string Q => q !! k)) in H.
    rewrite lookup_singleton_eq, lookup_empty in H. discriminate.
  - intros k' [v' Hv']. apply lookup_singleton_Some in Hv' as [<- _].
    exact Hk.
Qed.

Lemma bench_keys_spec (q : gmap string Q) (k : string) :
  k ∈ bench_keys q <-> is_Some (q !! k).
Proof.
  unfold bench_keys. rewrite list_elem_of_fmap. split.
  - intros [[k' v] [-> Hin]]. apply elem_of_map_to_list in Hin. eauto.
  - intros [v Hv]. exists (k, v). split; [reflexivity|].
    now apply elem_of_map_to_list.
Qed.

Section MotionFacts.

Variable list_to_pose_msg : list Q -> option Pose.
Variable keys : gmap string Q -> list string.
Variable SimplePlanner_plan :
  gmap string Q -> gmap string Q -> Outcome Trajectory.

(** The keys are those of the dictionary, in some order. *)
Hypothesis keys_spec :
  forall (q : gmap string Q) (k : string), k ∈ keys q <-> is_Some (q !! k).

Lemma keys_empty : keys ∅ = [].
Proof.
  destruct (keys ∅) as [|k l] eqn:E; [reflexivity|].
  assert (H : k ∈ keys ∅) by (rewrite E; apply list_elem_of_here).
  apply keys_spec in H. rewrite lookup_empty in H. now destruct H.
Qed.

Lemma limb_of_configuration (a : Arm) (q : gmap string Q) (r : Rig) :
  configuration_of a q -> limb_of keys q r = (Done a, r).
Proof.
  intros [Hne Hall]. unfold limb_of.
  destruct (keys q) as [|k l] eqn:E.
  - exfalso. apply Hne. apply map_empty. intros k.
    destruct (q !! k) eqn:Hk; [|reflexivity].
    assert (H : k ∈ keys q) by (apply keys_spec; eauto).
    rewrite E in H. now apply elem_of_nil in H.
  - assert (H : k ∈ keys q) by (rewrite E; apply list_elem_of_here).
    apply keys_spec in H. rewrite (Hall k H), limb_named_arm_name.
    reflexivity.
Qed.

(** The loop of [control] over targets that are configurations. *)
Lemma for_targets_run (arms : list Arm) (qs : list (gmap string Q))
  (r : Rig) :
  Forall2 configuration_of arms qs ->
  exists r',
    for_targets qs
      (fun q =>
         and_then (limb_of keys q)
           (fun arm => command (Limb_move_to_joint_positions arm q))) r
    = (Done tt, r') /\
    robot r' = robot r /\
    commands r'
    = commands r ++ zip_with Limb_move_to_joint_positions arms qs.
Proof.
  intros H. revert r.
  induction H as [|a q arms qs Hq _ IH]; intros r.
  - exists r. cbn. now rewrite app_nil_r.
  - cbn [for_targets zip_with].
    unfold and_then at 1. unfold and_then at 1.
    rewrite (limb_of_configuration a q r Hq). unfold command at 1.
    destruct (IH {| robot := robot r;
                    commands := commands r
                                ++ [Limb_move_to_joint_positions a q] |})
      as (r' & E & Hrob & Hcmd).
    exists r'. split; [exact E|]. split; [exact Hrob|].
    rewrite Hcmd. cbn [commands]. now rewrite <- app_assoc.
Qed.

Lemma for_targets_stops (arms : list Arm)
  (before after : list (gmap string Q)) (r : Rig) :
  Forall2 configuration_of arms before ->
  exists r',
    for_targets (before ++ ∅ :: after)
      (fun q =>
         and_then (limb_of keys q)
           (fun arm => command (Limb_move_to_joint_positions arm q))) r
    = (Failed (Base IndexError), r') /\
    robot r' = robot r /\
    commands r'
    = commands r ++ zip_with Limb_move_to_joint_positions arms before.
Proof.
  intros H. revert r.
  induction H as [|a q arms before Hq _ IH]; intros r.
  - exists r. cbn [app for_targets zip_with]. unfold and_then, limb_of.
    rewrite keys_empty. now rewrite app_nil_r.
  - cbn [app for_targets zip_with].
    unfold and_then at 1. unfold and_then at 1.
    rewrite (limb_of_configuration a q r Hq). unfold command at 1.
    destruct (IH {| robot := robot r;
                    commands := commands r
                                ++ [Limb_move_to_joint_positions a q] |})
      as (r' & E & Hrob & Hcmd).
    exists r'. split; [exact E|]. split; [exact Hrob|].
    rewrite Hcmd. cbn [commands]. now rewrite <- app_assoc.
Qed.

(** X19: in position mode [control] sends every target of the trajectory,
    in order, to the limb its joint names belong to, and returns; the
    rest of the robot's state is not touched. *)
Theorem control_position_in_order (t : Trajectory) (arms : list Arm)
  (r : Rig) :
  is_MotionPlanner t = true ->
  controller_type t = "position"%string ->
  Forall2 configuration_of arms (targets t) ->
  fst (control keys t r) = Done tt /\
  robot (snd (control keys t r)) = robot r /\
  commands (snd (control keys t r))
  = commands r ++ zip_with Limb_move_to_joint_positions arms (targets t).
Proof.
  intros Hmp Hct Hall. unfold control. rewrite Hmp, Hct. cbn [negb].
  destruct (for_targets_run arms (targets t) r Hall)
    as (r' & E & Hrob & Hcmd).
  cbn [String.eqb Ascii.eqb Bool.eqb]. rewrite E. cbn [fst snd]. auto.
Qed.

(** X20: [control] is not all-or-nothing.  When a target of the
    trajectory is an empty dictionary, the targets before it have been
    sent to their limbs, the call raises [IndexError], and the targets
    after it are never sent. *)
Theorem control_stops_at_empty_target (t : Trajectory) (arms : list Arm)
  (before after : list (gmap string Q)) (r : Rig) :
  is_MotionPlanner t = true ->
  controller_type t = "position"%string ->
  targets t = before ++ ∅ :: after ->
  Forall2 configuration_of arms before ->
  fst (control keys t r) = Failed (Base IndexError) /\
  robot (snd (control keys t r)) = robot r /\
  commands (snd (control keys t r))
  = commands r ++ zip_with Limb_move_to_joint_positions arms before.
Proof.
  intros Hmp Hct Ht Hall. unfold control. rewrite Hmp, Hct, Ht.
  cbn [negb String.eqb Ascii.eqb Bool.eqb].
  destruct (for_targets_stops arms before after r Hall)
    as (r' & E & Hrob & Hcmd).
  rewrite E. cbn [fst snd]. auto.
Qed.

(** X21: [control] moves the robot in position mode only.  An argument
    that is no [MotionPlanner] raises [TypeError]; a planner in velocity
    or torque mode raises [NotImplementedError] with the message of that
    mode; a planner in any other mode but ['position'] raises
    [KeyError].  In each case nothing is sent and nothing changes. *)
Theorem control_only_position_moves (t : Trajectory) (r : Rig) :
  (is_MotionPlanner t = false ->
   control keys t r = (Failed (Base TypeError), r)) /\
  (is_MotionPlanner t = true ->
   controller_type t = "velocity"%string ->
   control keys t r
   = (Failed (NotImplementedError "Need to implement velocity control!"),
      r)) /\
  (is_MotionPlanner t = true ->
   controller_type t = "torque"%string ->
   control keys t r
   = (Failed (NotImplementedError "Need to implement torque control!"),
      r)) /\
  (is_MotionPlanner t = true ->
   controller_type t <> "position"%string ->
   controller_type t <> "velocity"%string ->
   controller_type t <> "torque"%string ->
   control keys t r = (Failed (Base KeyError), r)).
Proof.
  unfold control. repeat split.
  - now intros ->.
  - now intros -> ->.
  - now intros -> ->.
  - intros -> H1 H2 H3. cbn [negb].
    destruct (String.eqb_spec (controller_type t) "position");
      [contradiction|].
    destruct (String.eqb_spec (controller_type t) "velocity");
      [contradiction|].
    destruct (String.eqb_spec (controller_type t) "torque");
      [contradiction|].
    reflexivity.
Qed.

(** X22: [move_to_pose] does not move without a solution: whatever [ik]
    raises leaves [move_to_pose], the planner is not asked and no command
    is sent. *)
Theorem move_to_pose_without_solution (arm : Arm) (pose : option PoseArg)
  (e : Exn) (r : Rig) :
  run (ik list_to_pose_msg arm pose) (robot r) = Raise e ->
  fst (move_to_pose list_to_pose_msg keys SimplePlanner_plan arm pose r)
  = Failed (Base e) /\
  commands
    (snd (move_to_pose list_to_pose_msg keys SimplePlanner_plan arm pose r))
  = commands r /\
  robot
    (snd (move_to_pose list_to_pose_msg keys SimplePlanner_plan arm pose r))
  = exec (ik list_to_pose_msg arm pose) (robot r).
Proof.
  unfold run, exec, move_to_pose, and_then, lift. intros H.
  destruct (ik list_to_pose_msg arm pose (robot r)) as [[cfg|e'] s'];
    cbn [fst snd] in *; [discriminate|].
  injection H as ->. auto.
Qed.

(** X23: [move_to_pose] moves the limb that the joint names of the
    solution belong to, along the targets of the planner: when [ik]
    returns a configuration of an arm and the planner, asked to go from
    the current angles of that arm to the configuration, yields a
    position-mode trajectory of configurations, exactly these are sent,
    in order. *)
Theorem move_to_pose_follows_plan (arm a : Arm) (pose : option PoseArg)
  (cfg : gmap string Q) (t : Trajectory) (arms : list Arm) (r : Rig) :
  run (ik list_to_pose_msg arm pose) (robot r) = Ok cfg ->
  configuration_of a cfg ->
  SimplePlanner_plan (limb_joint_angles (world (robot r)) a) cfg = Done t ->
  is_MotionPlanner t = true ->
  controller_type t = "position"%string ->
  Forall2 configuration_of arms (targets t) ->
  fst (move_to_pose list_to_pose_msg keys SimplePlanner_plan arm pose r)
  = Done tt /\
  commands
    (snd (move_to_pose list_to_pose_msg keys SimplePlanner_plan arm pose r))
  = commands r ++ zip_with Limb_move_to_joint_positions arms (targets t).
Proof.
  intros Hik Hcfg Hplan Hmp Hct Hall.
  pose proof (ik_frame list_to_pose_msg arm pose (robot r)) as (Hw & _).
  unfold run, exec in *.
  destruct (ik list_to_pose_msg arm pose (robot r)) as [[cfg'|e'] s']
    eqn:Eik; cbn [fst snd] in *; [|discriminate].
  injection Hik as ->.
  destruct (for_targets_run arms (targets t)
              {| robot := s'; commands := commands r |} Hall)
    as (r' & E & _ & Hcmd).
  assert (Heq : move_to_pose list_to_pose_msg keys SimplePlanner_plan arm
                  pose r = (Done tt, r')).
  { unfold move_to_pose, and_then at 1, lift at 1. rewrite Eik.
    unfold move_to_config, plan, and_then at 1. unfold and_then at 1.
    rewrite (limb_of_configuration a cfg _ Hcfg).
    unfold and_then at 1, lift, gets. cbn [robot commands].
    rewrite Hw, Hplan.
    unfold control. rewrite Hmp, Hct.
    cbn [negb String.eqb Ascii.eqb Bool.eqb].
    exact E. }
  rewrite Heq. cbn [fst snd]. auto.
Qed.

(** X24: a valid answer of the solver that names no joint gives an empty
    configuration, for which [move_to_pose] raises [IndexError] before
    the planner is asked; nothing is sent. *)
Theorem move_to_pose_empty_answer (arm : Arm) (p : PoseArg) (m : Pose)
  (positions : list Q) (r : Rig) :
  pose_of list_to_pose_msg p = Some m ->
  ik_service (world (robot r)) arm (stamped m)
  = IKResponse true [] positions ->
  fst (move_to_pose list_to_pose_msg keys SimplePlanner_plan arm (Some p) r)
  = Failed (Base IndexError) /\
  commands
    (snd (move_to_pose list_to_pose_msg keys SimplePlanner_plan arm
            (Some p) r))
  = commands r.
Proof.
  intros Hp Hsrv.
  assert (Heq : exists s',
             move_to_pose list_to_pose_msg keys SimplePlanner_plan arm
               (Some p) r
             = (Failed (Base IndexError),
                {| robot := s'; commands := commands r |})).
  { unfold move_to_pose, and_then at 1, lift at 1, ik.
    rewrite (bind_ok _ _ _ _ _
               (ik_stamp list_to_pose_msg p m (robot r) Hp)).
    unfold call_ik_service, try_except, bind, gets, emit, log, modify, ret.
    cbn [set_trace world]. rewrite Hsrv.
    cbn [dict_zip zip zip_with foldl].
    unfold move_to_config, plan, and_then, limb_of.
    rewrite keys_empty. eexists. reflexivity. }
  destruct Heq as [s' Heq]. rewrite Heq. cbn [fst snd]. auto.
Qed.

End MotionFacts.

Lemma configuration_of_insert (a : Arm) (k : string) (v : Q)
  (q : gmap string Q) :
  before_underscore k = arm_name a ->
  (forall k', is_Some (q !! k') -> before_underscore k' = arm_name a) ->
  configuration_of a (<[k := v]> q).
Proof.
  intros Hk Hq. split.
  - apply insert_non_empty.
  - intros k' [v' Hv']. apply lookup_insert_Some in Hv' as [[<- _]|[_ Hv']].
    + exact Hk.
    + apply Hq. eauto.
Qed.

(** Two steps, one for each arm. *)
Lemma control_position_in_order_bench :
  commands (snd (control bench_keys bench_trajectory bench_rig))
  = [ Limb_move_to_joint_positions Left {[ "left_s0"%string := 0.1 ]};
      Limb_move_to_joint_positions Right {[ "right_s0"%string := 0.2 ]} ].
Proof.
  apply (control_position_in_order bench_keys bench_keys_spec
           bench_trajectory [Left; Right] bench_rig).
  - reflexivity.
  - reflexivity.
  - constructor; [now apply configuration_of_singleton|].
    constructor; [now apply configuration_of_singleton|].
    constructor.
Defined.

(** The second of three targets is empty: one command is sent. *)
Lemma control_stops_at_empty_target_bench :
  fst (control bench_keys broken_trajectory bench_rig)
  = Failed (Base IndexError) /\
  commands (snd (control bench_keys broken_trajectory bench_rig))
  = [ Limb_move_to_joint_positions Left {[ "left_s0"%string := 0.1 ]} ].
Proof.
  destruct (control_stops_at_empty_target bench_keys bench_keys_spec
              broken_trajectory [Left]
              [ {[ "left_s0"%string := 0.1 ]} ]
              [ {[ "right_s0"%string := 0.2 ]} ] bench_rig
              eq_refl eq_refl eq_refl) as (Hfail & _ & Hcmd).
  - constructor; [now apply configuration_of_singleton|]. constructor.
  - split; [exact Hfail | exact Hcmd].
Defined.

Lemma control_only_position_moves_bench :
  control bench_keys velocity_trajectory bench_rig
  = (Failed (NotImplementedError "Need to implement velocity control!"),
     bench_rig).
Proof.
  apply (proj1 (proj2 (control_only_position_moves bench_keys
                         velocity_trajectory bench_rig)));
    reflexivity.
Defined.

(** The bench solver rejects every pose for the left arm. *)
Lemma move_to_pose_without_solution_bench :
  commands
    (snd (move_to_pose bench_list_to_pose_msg bench_keys bench_planner
            Left (Some (PoseMsg bench_pose)) bench_rig))
  = [].
Proof.
  apply (move_to_pose_without_solution bench_list_to_pose_msg bench_keys
           bench_planner Left (Some (PoseMsg bench_pose))
           (ValueError (NoValidConfiguration (PoseMsg bench_pose) Left))
           bench_rig).
  reflexivity.
Defined.

(** The bench solver answers for the right arm, and the bench planner goes
    there in one step. *)
Lemma move_to_pose_follows_plan_bench :
  commands
    (snd (move_to_pose bench_list_to_pose_msg bench_keys bench_planner
            Right (Some (PoseMsg bench_pose)) bench_rig))
  = [ Limb_move_to_joint_positions Right
        (dict_zip ["right_s0"%string; "right_s1"%string] [0.3; 0.4]) ].
Proof.
  apply (move_to_pose_follows_plan bench_list_to_pose_msg bench_keys
           bench_planner bench_keys_spec Right Right
           (Some (PoseMsg bench_pose))
           (dict_zip ["right_s0"%string; "right_s1"%string] [0.3; 0.4])
           {| is_MotionPlanner := true; controller_type := "position";
              targets := [dict_zip ["right_s0"%string; "right_s1"%string]
                            [0.3; 0.4]] |}
           [Right] bench_rig).
  - reflexivity.
  - unfold dict_zip. cbn [zip zip_with foldl fst snd].
    apply configuration_of_insert; [reflexivity|].
    intros k' [v' Hv']. apply lookup_insert_Some in Hv' as [[<- _]|[_ Hv']].
    + reflexivity.
    + rewrite lookup_empty in Hv'. discriminate.
  - reflexivity.
  - reflexivity.
  - reflexivity.
  - constructor; [|constructor].
    unfold dict_zip. cbn [zip zip_with foldl fst snd].
    apply configuration_of_insert; [reflexivity|].
    intros k' [v' Hv']. apply lookup_insert_Some in Hv' as [[<- _]|[_ Hv']].
    + reflexivity.
    + rewrite lookup_empty in Hv'. discriminate.
Defined.

Lemma move_to_pose_empty_answer_bench :
  fst (move_to_pose bench_list_to_pose_msg bench_keys bench_planner
         Right (Some (PoseMsg bench_pose)) mute_rig)
  = Failed (Base IndexError).
Proof.
  apply (move_to_pose_empty_answer bench_list_to_pose_msg bench_keys
           bench_planner bench_keys_spec Right (PoseMsg bench_pose)
           bench_pose [] mute_rig); reflexivity.
Defined.

(** ** Keyboard instruction *)

Lemma get_int_in_dict_skips (s : string) (d : gmap Z string)
  (skipped rest : list Typed) (out : list Printed) :
  Forall (turned_down d) skipped ->
  get_int_in_dict s d (skipped ++ rest) out
  = get_int_in_dict s d rest (out ++ flat_map (retry s) skipped).
Proof.
  intros H. revert out.
  induction H as [|x skipped Hx _ IH]; intros out.
  - cbn. now rewrite app_nil_r.
  - cbn [app flat_map get_int_in_dict].
    destruct Hx as [->|(z & -> & Hz & Hd)].
    + rewrite IH. cbn [retry]. now rewrite <- !app_assoc.
    + apply Z.eqb_neq in Hz. rewrite Hz, Hd, IH. cbn [retry].
      now rewrite <- !app_assoc.
Qed.

Lemma get_int_in_dict_usable (s : string) (d : gmap Z string)
  (rest : list Typed) (z : Z) (v : string) (out : list Printed) :
  usable d z v ->
  get_int_in_dict s d (IntTyped z :: rest) out
  = (Answer v, rest, out ++ [Prompt s]).
Proof.
  intros [[-> ->]|[Hz Hv]]; cbn [get_int_in_dict]; [reflexivity|].
  apply Z.eqb_neq in Hz. now rewrite Hz, Hv.
Qed.

(** X25: [get_int_in_dict] answers every line that is no [int], or an
    [int] that is neither 0 nor a key, with a message and a new prompt,
    and returns at the first line that is 0 (['exit']) or a key (its
    value); the lines after that one are left unread. *)
Theorem get_int_in_dict_first_usable (s : string) (d : gmap Z string)
  (skipped rest : list Typed) (z : Z) (v : string) (out : list Printed) :
  Forall (turned_down d) skipped ->
  usable d z v ->
  get_int_in_dict s d (skipped ++ IntTyped z :: rest) out
  = (Answer v, rest, out ++ flat_map (retry s) skipped ++ [Prompt s]).
Proof.
  intros Hskip Hz. rewrite get_int_in_dict_skips by exact Hskip.
  rewrite (get_int_in_dict_usable s d rest z v _ Hz).
  now rewrite <- app_assoc.
Qed.

Lemma get_int_in_dict_first_usable_example :
  get_int_in_dict object_prompt _object_ids
    [OtherTyped; IntTyped 9; IntTyped 6; IntTyped 2] []
  = (Answer "cup"%string, [IntTyped 2],
     [Prompt object_prompt; Line not_an_integer;
      Prompt object_prompt; Line not_valid; Prompt object_prompt]).
Proof.
  apply (get_int_in_dict_first_usable object_prompt _object_ids
           [OtherTyped; IntTyped 9] [IntTyped 2] 6 "cup" []).
  - constructor; [now left|].
    constructor; [|constructor].
    right. exists 9%Z. split; [reflexivity|]. split; [discriminate | reflexivity].
  - right. split; [discriminate | reflexivity].
Defined.

(** X26: when every line is turned down, [get_int_in_dict] prompts once
    more after the last one and ends with the [EOFError] of [input()];
    it never returns a value nobody typed. *)
Theorem get_int_in_dict_no_usable_line (s : string) (d : gmap Z string)
  (typed : list Typed) (out : list Printed) :
  Forall (turned_down d) typed ->
  get_int_in_dict s d typed out
  = (EOFError, [], out ++ flat_map (retry s) typed ++ [Prompt s]).
Proof.
  intros H. rewrite <- (app_nil_r typed) at 1.
  rewrite get_int_in_dict_skips by exact H.
  cbn [get_int_in_dict]. now rewrite <- app_assoc.
Qed.

Lemma get_int_in_dict_no_usable_line_example :
  get_int_in_dict target_prompt _target_ids [IntTyped 3; OtherTyped] []
  = (EOFError, [],
     [Prompt target_prompt; Line not_valid;
      Prompt target_prompt; Line not_an_integer; Prompt target_prompt]).
Proof.
  apply (get_int_in_dict_no_usable_line target_prompt _target_ids
           [IntTyped 3; OtherTyped] []).
  constructor; [|constructor; [now left | constructor]].
  right. exists 3%Z. split; [reflexivity|]. split; [discriminate | reflexivity].
Defined.

(** The values of the two dictionaries: none of them is ['exit']. *)
Lemma object_ids_values (z : Z) (v : string) :
  _object_ids !! z = Some v ->
  v <> "exit"%string /\
  In v ["hand"; "remote"; "cellphone"; "mouse"; "bottle"; "cup";
        "ball"]%string.
Proof.
  unfold _object_ids. intros H. apply elem_of_list_to_map_2 in H.
  repeat (apply elem_of_cons in H as [[= _ ->]|H];
          [split; [discriminate | cbn; tauto]|]).
  now apply elem_of_nil in H.
Qed.

Lemma target_ids_values (z : Z) (v : string) :
  _target_ids !! z = Some v ->
  v <> "exit"%string /\ In v ["hand"; "table"]%string.
Proof.
  unfold _target_ids. intros H. apply elem_of_list_to_map_2 in H.
  repeat (apply elem_of_cons in H as [[= _ ->]|H];
          [split; [discriminate | cbn; tauto]|]).
  now apply elem_of_nil in H.
Qed.

Lemma get_int_in_dict_answer (s : string) (d : gmap Z string)
  (typed : list Typed) (out : list Printed) (v : string)
  (rest : list Typed) (out' : list Printed) :
  get_int_in_dict s d typed out = (Answer v, rest, out') ->
  v = "exit"%string \/ exists z, d !! z = Some v.
Proof.
  revert out. induction typed as [|x typed IH]; intros out; cbn.
  - discriminate.
  - destruct x as [z| |]; [|apply IH | discriminate].
    destruct (z =? 0)%Z; [intros [= <- _ _]; now left|].
    destruct (d !! z) as [v'|] eqn:Hd; [|apply IH].
    intros [= <- _ _]. right. eauto.
Qed.

(** X27: whatever is typed, what [instruct] returns is ['exit'] or the
    name of one of the seven objects, a space, and ['hand'] or
    ['table']. *)
Theorem instruct_returns_exit_or_pair (typed : list Typed)
  (printed : list Printed) (r : string) (rest : list Typed)
  (out : list Printed) :
  instruct typed printed = (Answer r, rest, out) ->
  r = "exit"%string \/
  exists o t,
    In o ["hand"; "remote"; "cellphone"; "mouse"; "bottle"; "cup";
          "ball"]%string /\
    In t ["hand"; "table"]%string /\
    r = (o ++ " " ++ t)%string.
Proof.
  unfold instruct.
  destruct (get_int_in_dict object_prompt _object_ids typed printed)
    as [[[oid| |] rest1] out1] eqn:E1; try discriminate.
  destruct (String.eqb_spec oid "exit") as [->|Hoid];
    [intros [= <- _ _]; now left|].
  destruct (get_int_in_dict target_prompt _target_ids rest1 out1)
    as [[[tid| |] rest2] out2] eqn:E2; try discriminate.
  destruct (String.eqb_spec tid "exit") as [->|Htid];
    [intros [= <- _ _]; now left|].
  intros [= <- _ _]. right. exists oid, tid.
  apply get_int_in_dict_answer in E1 as [?|[z1 H1]]; [contradiction|].
  apply get_int_in_dict_answer in E2 as [?|[z2 H2]]; [contradiction|].
  apply object_ids_values in H1 as [_ H1].
  apply target_ids_values in H2 as [_ H2].
  auto.
Qed.

Lemma instruct_returns_exit_or_pair_example :
  "cup table"%string = "exit"%string \/
  exists o t,
    In o ["hand"; "remote"; "cellphone"; "mouse"; "bottle"; "cup";
          "ball"]%string /\
    In t ["hand"; "table"]%string /\
    "cup table"%string = (o ++ " " ++ t)%string.
Proof.
  apply (instruct_returns_exit_or_pair [IntTyped 6; IntTyped 2] []
           "cup table" [] [Prompt object_prompt; Prompt target_prompt]).
  reflexivity.
Defined.

(** X28: a 0 at the object prompt ends [instruct] with ['exit'] at once:
    the target prompt is not shown and the lines that follow are not
    read. *)
Theorem instruct_exit_at_object_prompt (skipped rest : list Typed)
  (printed : list Printed) :
  Forall (turned_down _object_ids) skipped ->
  instruct (skipped ++ IntTyped 0 :: rest) printed
  = (Answer "exit"%string, rest,
     printed ++ flat_map (retry object_prompt) skipped
     ++ [Prompt object_prompt]).
Proof.
  intros H. unfold instruct.
  rewrite get_int_in_dict_skips by exact H.
  rewrite (get_int_in_dict_usable object_prompt _object_ids rest 0 "exit")
    by (left; auto).
  cbn [String.eqb Ascii.eqb Bool.eqb]. now rewrite <- app_assoc.
Qed.

Lemma instruct_exit_at_object_prompt_example :
  instruct [OtherTyped; IntTyped 0; IntTyped 1] []
  = (Answer "exit"%string, [IntTyped 1],
     [Prompt object_prompt; Line not_an_integer; Prompt object_prompt]).
Proof.
  apply (instruct_exit_at_object_prompt [OtherTyped] [IntTyped 1] []).
  constructor; [now left | constructor].
Defined.

(** X29: an object key followed by a target key, with any number of
    turned-down lines before each, makes [instruct] return the two names
    joined by a space. *)
Theorem instruct_object_then_target (skipped1 skipped2 rest : list Typed)
  (i j : Z) (o t : string) (printed : list Printed) :
  Forall (turned_down _object_ids) skipped1 ->
  Forall (turned_down _target_ids) skipped2 ->
  _object_ids !! i = Some o ->
  _target_ids !! j = Some t ->
  instruct (skipped1 ++ IntTyped i :: skipped2 ++ IntTyped j :: rest) printed
  = (Answer (o ++ " " ++ t)%string, rest,
     printed ++ flat_map (retry object_prompt) skipped1
     ++ [Prompt object_prompt]
     ++ flat_map (retry target_prompt) skipped2 ++ [Prompt target_prompt]).
Proof.
  intros H1 H2 Hi Hj. unfold instruct.
  assert (Hi0 : i <> 0%Z) by (intros ->; discriminate).
  assert (Hj0 : j <> 0%Z) by (intros ->; discriminate).
  rewrite get_int_in_dict_skips by exact H1.
  rewrite (get_int_in_dict_usable object_prompt _object_ids _ i o)
    by (right; auto).
  destruct (object_ids_values i o Hi) as [Ho _].
  destruct (String.eqb_spec o "exit"); [contradiction|].
  rewrite get_int_in_dict_skips by exact H2.
  rewrite (get_int_in_dict_usable target_prompt _target_ids rest j t)
    by (right; auto).
  destruct (target_ids_values j t Hj) as [Ht _].
  destruct (String.eqb_spec t "exit"); [contradiction|].
  now rewrite <- !app_assoc.
Qed.

Lemma instruct_object_then_target_example :
  instruct [IntTyped 8; IntTyped 5; OtherTyped; IntTyped 1] []
  = (Answer "bottle hand"%string, [],
     [Prompt object_prompt; Line not_valid; Prompt object_prompt;
      Prompt target_prompt; Line not_an_integer; Prompt target_prompt]).
Proof.
  apply (instruct_object_then_target [IntTyped 8] [OtherTyped] [] 5 1
           "bottle" "hand" []).
  - constructor; [|constructor].
    right. exists 8%Z. split; [reflexivity|]. split; [discriminate | reflexivity].
  - constructor; [now left | constructor].
  - reflexivity.
  - reflexivity.
Defined.
